(** * The IEEE 1275 TPM2 transport of GRUB (grub-core/lib/ieee1275/tcg2.c)

    A shallow embedding of [tpm_get_tpm_version], [grub_ieee1275_tpm_init],
    [grub_tcg2_get_max_output_size] and [grub_tcg2_submit_command].

    The C code keeps its state in globals and function-local statics and
    talks to Open Firmware through collaborators that live outside the
    file.  Here the globals and statics are the fields of a [session]
    record threaded through a small state monad, the collaborators are the
    fields of a [firmware] record (an arbitrary, possibly stateful oracle),
    and every collaborator call is appended to the session's [trace], so
    that "is called", "is not called again" and "is called once" are
    statements about that trace. *)

From Stdlib Require Import ZArith List String Ascii Bool Lia.
From Stdlib.Strings Require Import Byte.
Import ListNotations.

Local Open Scope string_scope.
Local Open Scope list_scope.
Local Open Scope Z_scope.

(** ** Error codes

    The members of [grub_err_t] (include/grub/err.h) that tcg2.c names. *)
Inductive grub_err_t : Type :=
| GRUB_ERR_NONE
| GRUB_ERR_BAD_ARGUMENT
| GRUB_ERR_UNKNOWN_DEVICE
| GRUB_ERR_BAD_DEVICE
| GRUB_ERR_INVALID_COMMAND.

Definition grub_err_eqb (a b : grub_err_t) : bool :=
  match a, b with
  | GRUB_ERR_NONE, GRUB_ERR_NONE
  | GRUB_ERR_BAD_ARGUMENT, GRUB_ERR_BAD_ARGUMENT
  | GRUB_ERR_UNKNOWN_DEVICE, GRUB_ERR_UNKNOWN_DEVICE
  | GRUB_ERR_BAD_DEVICE, GRUB_ERR_BAD_DEVICE
  | GRUB_ERR_INVALID_COMMAND, GRUB_ERR_INVALID_COMMAND => true
  | _, _ => false
  end.

(** ** Cells, handles and call frames

    [grub_ieee1275_cell_t], [grub_ieee1275_ihandle_t],
    [grub_ieee1275_phandle_t] and [grub_size_t] are unsigned integers of
    the machine's word width; no arithmetic is done on them in this file,
    so they are carried as [Z].  A cell that holds a pointer to a string
    literal is carried as the string.  A [char] is a [byte]; caller memory
    is a map from addresses to bytes, and the null pointer is address 0. *)
Definition memory : Type := Z -> byte.

Definition NULL : Z := 0.

(** [#define IEEE1275_IHANDLE_INVALID ((grub_ieee1275_ihandle_t) 0)] *)
Definition IEEE1275_IHANDLE_INVALID : Z := 0.

Record grub_ieee1275_common_hdr : Type := {
  name : string;
  nr_ins : Z;
  nr_outs : Z
}.

(** The macro [INIT_IEEE1275_COMMON (p, xname, xins, xouts)] fills the
    three header cells. *)
Definition INIT_IEEE1275_COMMON (xname : string) (xins xouts : Z)
  : grub_ieee1275_common_hdr :=
  {| name := xname; nr_ins := xins; nr_outs := xouts |}.

(** [struct tpm_get_maximum_cmd_size], local to
    [grub_tcg2_get_max_output_size]. *)
Record tpm_get_maximum_cmd_size : Type := {
  gm_common : grub_ieee1275_common_hdr;
  gm_method : string;
  gm_ihandle : Z;
  gm_catch_result : Z;
  gm_size : Z
}.

(** [struct tpm_pass_through_to_tpm], local to [grub_tcg2_submit_command]. *)
Record tpm_pass_through_to_tpm : Type := {
  pt_common : grub_ieee1275_common_hdr;
  pt_method : string;
  pt_ihandle : Z;
  pt_buf_size : Z;
  pt_buf_addr : Z;
  pt_catch_result : Z;
  pt_resp_size : Z
}.

(** ** The firmware

    What tcg2.c calls but does not define.  Each collaborator is a function
    of the firmware's own state [W]; integer results are C [int]s.

    - [fw_open path old]: [grub_ieee1275_open (path, &ihandle)]; [old] is
      the content of the handle variable before the call, the second
      component of the result its content after the call.
    - [fw_finddevice path]: [grub_ieee1275_finddevice (path, &phandle)];
      returns the content of the phandle variable after the call.
    - [fw_get_property ph prop len]: [grub_ieee1275_get_property (ph, prop,
      buffer, len, NULL)]; returns the content of [buffer] after the call.
    - [fw_entry_get_maximum_cmd_size] and [fw_entry_pass_through_to_tpm]:
      [IEEE1275_CALL_ENTRY_FN (&args)] at the two frame types; the frame is
      returned as the firmware left it.  The pass-through call is handed the
      address of a caller buffer, so it also transforms caller memory. *)
Record firmware (W : Type) : Type := {
  fw_open : string -> Z -> W -> Z * Z * W;
  fw_finddevice : string -> W -> Z * Z * W;
  fw_get_property : Z -> string -> Z -> W -> Z * list byte * W;
  fw_entry_get_maximum_cmd_size :
    tpm_get_maximum_cmd_size -> W -> Z * tpm_get_maximum_cmd_size * W;
  fw_entry_pass_through_to_tpm :
    tpm_pass_through_to_tpm -> memory -> W ->
    Z * tpm_pass_through_to_tpm * memory * W
}.

Arguments fw_open {W} _ _ _ _.
Arguments fw_finddevice {W} _ _ _.
Arguments fw_get_property {W} _ _ _ _ _.
Arguments fw_entry_get_maximum_cmd_size {W} _ _ _.
Arguments fw_entry_pass_through_to_tpm {W} _ _ _ _.

(** ** Observable events *)
Inductive event : Type :=
| ev_open (path : string)
| ev_finddevice (path : string)
| ev_get_property (phandle : Z) (prop : string) (len : Z)
| ev_call_entry (method : string)
| ev_grub_error (err : grub_err_t) (msg : string)
| ev_memcpy (dest src n : Z).

Definition is_open (e : event) : bool :=
  match e with ev_open _ => true | _ => false end.

Definition is_call_entry (e : event) : bool :=
  match e with ev_call_entry _ => true | _ => false end.

Definition is_grub_error (e : event) : bool :=
  match e with ev_grub_error _ _ => true | _ => false end.

Definition is_memcpy (e : event) : bool :=
  match e with ev_memcpy _ _ _ => true | _ => false end.

Definition count (p : event -> bool) (t : list event) : nat :=
  List.length (filter p t).

(** ** Session state

    [grub_ieee1275_tpm_ihandle] and [grub_ieee1275_tpm_version] are the two
    globals; [init_success] is the static of [grub_ieee1275_tpm_init];
    [error_displayed_size] and [error_displayed_submit] are the two statics
    called [error_displayed], of [grub_tcg2_get_max_output_size] and of
    [grub_tcg2_submit_command]. *)
Record session (W : Type) : Type := mk_session {
  grub_ieee1275_tpm_ihandle : Z;
  grub_ieee1275_tpm_version : Z;
  init_success : Z;
  error_displayed_size : Z;
  error_displayed_submit : Z;
  mem : memory;
  world : W;
  trace : list event
}.

Arguments mk_session {W} _ _ _ _ _ _ _ _.
Arguments grub_ieee1275_tpm_ihandle {W} _.
Arguments grub_ieee1275_tpm_version {W} _.
Arguments init_success {W} _.
Arguments error_displayed_size {W} _.
Arguments error_displayed_submit {W} _.
Arguments mem {W} _.
Arguments world {W} _.
Arguments trace {W} _.

(** Objects of static storage duration start at zero. *)
Definition boot {W : Type} (m : memory) (w : W) : session W :=
  mk_session 0 0 0 0 0 m w [].

(** ** String helpers *)

(** A string literal as the bytes before its terminator. *)
Definition lit (s : string) : list byte := list_byte_of_string s.

(** The C string stored in a [char] array: the bytes before the first NUL. *)
Fixpoint c_str (b : list byte) : list byte :=
  match b with
  | [] => []
  | c :: t => if Byte.eqb c x00 then [] else c :: c_str t
  end.

(** Modelled from the spec: [grub_strcmp] (grub-core/kern/misc.c) is not
    among the sources; the spec has the property "compared exactly" with the
    identifier string.  The two strings are walked while both characters are
    non-NUL and equal, and the difference of the two characters, as unsigned
    bytes, is returned.  The end of a list stands for the terminator. *)
Fixpoint grub_strcmp (s1 s2 : list byte) : Z :=
  let c1 := hd x00 s1 in
  let c2 := hd x00 s2 in
  if negb (Byte.eqb c1 x00) && negb (Byte.eqb c2 x00) && Byte.eqb c1 c2 then
    match s1, s2 with
    | _ :: t1, _ :: t2 => grub_strcmp t1 t2
    | _, _ => 0
    end
  else Z.of_N (Byte.to_N c1) - Z.of_N (Byte.to_N c2).

(** Memory after the [n] bytes at [src] have been stored at [dest]; every
    other byte is kept. *)
Definition mem_copy (dest src n : Z) (m : memory) : memory :=
  fun a => if (dest <=? a) && (a <? dest + n) then m (src + (a - dest)) else m a.

(** Lines 86-88: the frame of the "get-maximum-cmd-size" call.  The two
    result cells are not initialised by the C code; the frame is handed to
    the firmware with 0 in them. *)
Definition get_maximum_cmd_size_args (ihandle : Z) : tpm_get_maximum_cmd_size :=
  {| gm_common := INIT_IEEE1275_COMMON "call-method" 2 2;
     gm_method := "get-maximum-cmd-size";
     gm_ihandle := ihandle;
     gm_catch_result := 0;
     gm_size := 0 |}.

(** Lines 141-145: the frame of the "pass-through-to-tpm" call, result cells
    as above. *)
Definition pass_through_to_tpm_args (ihandle input_size input : Z)
  : tpm_pass_through_to_tpm :=
  {| pt_common := INIT_IEEE1275_COMMON "call-method" 4 2;
     pt_method := "pass-through-to-tpm";
     pt_ihandle := ihandle;
     pt_buf_size := input_size;
     pt_buf_addr := input;
     pt_catch_result := 0;
     pt_resp_size := 0 |}.

Definition LF : string := String "010"%char EmptyString.

Definition msg_get_maximum_cmd_size : string :=
  ("get-maximum-cmd-size failed: Firmware is likely too old." ++ LF)%string.

Definition msg_pass_through_to_tpm : string :=
  ("pass-through-to-tpm failed: Firmware is likely too old." ++ LF)%string.

(** ** Field updates of a session *)

Definition set_ihandle {W : Type} (h : Z) (s : session W) : session W :=
  mk_session h (grub_ieee1275_tpm_version s) (init_success s)
    (error_displayed_size s) (error_displayed_submit s) (mem s) (world s)
    (trace s).

Definition set_version {W : Type} (v : Z) (s : session W) : session W :=
  mk_session (grub_ieee1275_tpm_ihandle s) v (init_success s)
    (error_displayed_size s) (error_displayed_submit s) (mem s) (world s)
    (trace s).

Definition set_init_success {W : Type} (i : Z) (s : session W) : session W :=
  mk_session (grub_ieee1275_tpm_ihandle s) (grub_ieee1275_tpm_version s) i
    (error_displayed_size s) (error_displayed_submit s) (mem s) (world s)
    (trace s).

Definition set_error_displayed_size {W : Type} (e : Z) (s : session W)
  : session W :=
  mk_session (grub_ieee1275_tpm_ihandle s) (grub_ieee1275_tpm_version s)
    (init_success s) e (error_displayed_submit s) (mem s) (world s) (trace s).

Definition set_error_displayed_submit {W : Type} (e : Z) (s : session W)
  : session W :=
  mk_session (grub_ieee1275_tpm_ihandle s) (grub_ieee1275_tpm_version s)
    (init_success s) (error_displayed_size s) e (mem s) (world s) (trace s).

Definition set_mem {W : Type} (m : memory) (s : session W) : session W :=
  mk_session (grub_ieee1275_tpm_ihandle s) (grub_ieee1275_tpm_version s)
    (init_success s) (error_displayed_size s) (error_displayed_submit s) m
    (world s) (trace s).

Definition set_world {W : Type} (w : W) (s : session W) : session W :=
  mk_session (grub_ieee1275_tpm_ihandle s) (grub_ieee1275_tpm_version s)
    (init_success s) (error_displayed_size s) (error_displayed_submit s)
    (mem s) w (trace s).

Definition log {W : Type} (e : event) (s : session W) : session W :=
  mk_session (grub_ieee1275_tpm_ihandle s) (grub_ieee1275_tpm_version s)
    (init_success s) (error_displayed_size s) (error_displayed_submit s)
    (mem s) (world s) (trace s ++ [e]).

(** ** The state monad of the transport *)

Definition M (W A : Type) : Type := session W -> A * session W.

Definition ret {W A : Type} (a : A) : M W A := fun s => (a, s).

Definition bind {W A B : Type} (m : M W A) (k : A -> M W B) : M W B :=
  fun s => let (a, s') := m s in k a s'.

Definition gets {W A : Type} (f : session W -> A) : M W A :=
  fun s => (f s, s).

Definition modify {W : Type} (f : session W -> session W) : M W unit :=
  fun s => (tt, f s).

Declare Scope tpm_scope.
Delimit Scope tpm_scope with tpm.

Notation "x <- m ;; k" := (bind m (fun x => k))
  (at level 61, m at next level, right associativity) : tpm_scope.
Notation "' p <- m ;; k" := (bind m (fun x => let 'p := x in k))
  (at level 61, p pattern, m at next level, right associativity) : tpm_scope.
Notation "m ;; k" := (bind m (fun _ => k))
  (at level 61, right associativity) : tpm_scope.

Local Open Scope tpm_scope.

(** ** The program *)

Section Transport.

Context {W : Type} (fw : firmware W).

(** [grub_ieee1275_open (path, &grub_ieee1275_tpm_ihandle)]: the only
    handle variable this file passes is the global. *)
Definition grub_ieee1275_open (path : string) : M W Z :=
  fun s =>
    let '(rc, h, w) := fw_open fw path (grub_ieee1275_tpm_ihandle s) (world s) in
    (rc, set_ihandle h (set_world w (log (ev_open path) s))).

(** [grub_ieee1275_finddevice (path, &vtpm)]; yields the return code and
    the local [vtpm]. *)
Definition grub_ieee1275_finddevice (path : string) : M W (Z * Z) :=
  fun s =>
    let '(rc, ph, w) := fw_finddevice fw path (world s) in
    ((rc, ph), set_world w (log (ev_finddevice path) s)).

(** [grub_ieee1275_get_property (vtpm, prop, buffer, sizeof (buffer),
    NULL)]; yields the return code and the local [buffer]. *)
Definition grub_ieee1275_get_property (ph : Z) (prop : string) (len : Z)
  : M W (Z * list byte) :=
  fun s =>
    let '(rc, buffer, w) := fw_get_property fw ph prop len (world s) in
    ((rc, buffer), set_world w (log (ev_get_property ph prop len) s)).

(** [IEEE1275_CALL_ENTRY_FN (&args)] on a [struct
    tpm_get_maximum_cmd_size]; yields the return code and [args]. *)
Definition IEEE1275_CALL_ENTRY_FN_get_maximum_cmd_size
  (args : tpm_get_maximum_cmd_size) : M W (Z * tpm_get_maximum_cmd_size) :=
  fun s =>
    let '(rc, args', w) := fw_entry_get_maximum_cmd_size fw args (world s) in
    ((rc, args'), set_world w (log (ev_call_entry (gm_method args)) s)).

(** [IEEE1275_CALL_ENTRY_FN (&args)] on a [struct
    tpm_pass_through_to_tpm]; yields the return code and [args]. *)
Definition IEEE1275_CALL_ENTRY_FN_pass_through_to_tpm
  (args : tpm_pass_through_to_tpm) : M W (Z * tpm_pass_through_to_tpm) :=
  fun s =>
    let '(rc, args', m, w) :=
      fw_entry_pass_through_to_tpm fw args (mem s) (world s) in
    ((rc, args'),
     set_mem m (set_world w (log (ev_call_entry (pt_method args)) s))).

(** Modelled from the spec: [grub_error] (grub-core/kern/err.c) is not among
    the sources; it surfaces the message as the user-visible warning and
    returns the error code it was given. *)
Definition grub_error (n : grub_err_t) (msg : string) : M W grub_err_t :=
  fun s => (n, log (ev_grub_error n msg) s).

(** Modelled from the spec: [grub_memcpy] (include/grub/misc.h) is not among
    the sources; it is the "memory copy primitive" of the spec. *)
Definition grub_memcpy (dest src n : Z) : M W unit :=
  fun s =>
    (tt, set_mem (mem_copy dest src n (mem s)) (log (ev_memcpy dest src n) s)).

(** [static void tpm_get_tpm_version (void)] *)
Definition tpm_get_tpm_version : M W unit :=
  '(rc, vtpm) <- grub_ieee1275_finddevice "/vdevice/vtpm" ;;
  if rc =? 0 then
    '(rc', buffer) <- grub_ieee1275_get_property vtpm "compatible" 20 ;;
    if rc' =? 0 then
      if grub_strcmp buffer (lit "IBM,vtpm20") =? 0 then
        modify (set_version 2)
      else ret tt
    else ret tt
  else ret tt.

(** [grub_err_t grub_ieee1275_tpm_init (void)] *)
Definition grub_ieee1275_tpm_init : M W grub_err_t :=
  i <- gets init_success ;;
  if i =? 0 then
    rc <- grub_ieee1275_open "/vdevice/vtpm" ;;
    if rc <? 0 then
      modify (set_ihandle IEEE1275_IHANDLE_INVALID) ;;
      ret GRUB_ERR_UNKNOWN_DEVICE
    else
      modify (set_init_success 1) ;;
      tpm_get_tpm_version ;;
      ret GRUB_ERR_NONE
  else ret GRUB_ERR_NONE.

(** [grub_err_t grub_tcg2_get_max_output_size (grub_size_t *size)].
    [size] is the content of the caller's variable before the call; the
    second component of the result is its content after the call. *)
Definition grub_tcg2_get_max_output_size (size : Z) : M W (grub_err_t * Z) :=
  err <- grub_ieee1275_tpm_init ;;
  if negb (grub_err_eqb err GRUB_ERR_NONE) then ret (err, size)
  else
    h <- gets grub_ieee1275_tpm_ihandle ;;
    let args := get_maximum_cmd_size_args h in
    '(rc, args) <- IEEE1275_CALL_ENTRY_FN_get_maximum_cmd_size args ;;
    if rc =? -1 then ret (GRUB_ERR_INVALID_COMMAND, size)
    else if negb (gm_catch_result args =? 0) then
      e <- gets error_displayed_size ;;
      if e =? 0 then
        modify (set_error_displayed_size (e + 1)) ;;
        r <- grub_error GRUB_ERR_BAD_DEVICE msg_get_maximum_cmd_size ;;
        ret (r, size)
      else ret (GRUB_ERR_INVALID_COMMAND, size)
    else ret (GRUB_ERR_NONE, gm_size args).

(** [grub_err_t grub_tcg2_submit_command (grub_size_t input_size,
    grub_uint8_t *input, grub_size_t output_size, grub_uint8_t *output)].
    The buffers are addresses into [mem]. *)
Definition grub_tcg2_submit_command (input_size input output_size output : Z)
  : M W grub_err_t :=
  if (input_size =? 0) || (input =? NULL) ||
     (output_size =? 0) || (output =? NULL)
  then ret GRUB_ERR_BAD_ARGUMENT
  else
    err <- grub_ieee1275_tpm_init ;;
    if negb (grub_err_eqb err GRUB_ERR_NONE) then ret err
    else
      h <- gets grub_ieee1275_tpm_ihandle ;;
      let args := pass_through_to_tpm_args h input_size input in
      '(rc, args) <- IEEE1275_CALL_ENTRY_FN_pass_through_to_tpm args ;;
      if rc =? -1 then ret GRUB_ERR_INVALID_COMMAND
      else if negb (pt_catch_result args =? 0) then
        e <- gets error_displayed_submit ;;
        if e =? 0 then
          modify (set_error_displayed_submit (e + 1)) ;;
          grub_error GRUB_ERR_BAD_DEVICE msg_pass_through_to_tpm
        else ret GRUB_ERR_INVALID_COMMAND
      else
        grub_memcpy output input (pt_resp_size args) ;;
        ret GRUB_ERR_NONE.

End Transport.

(** ** Sessions of several calls *)

Inductive call : Type :=
| call_init
| call_get_max_output_size (size : Z)
| call_submit_command (input_size input output_size output : Z).

Definition is_init (c : call) : bool :=
  match c with call_init => true | _ => false end.

Definition is_get_max_output_size (c : call) : bool :=
  match c with call_get_max_output_size _ => true | _ => false end.

(** A submission that passes the argument check. *)
Definition is_submit_command (c : call) : bool :=
  match c with
  | call_submit_command input_size input output_size output =>
      negb ((input_size =? 0) || (input =? NULL) ||
            (output_size =? 0) || (output =? NULL))
  | _ => false
  end.

(** A call that is not a submission rejected for its arguments. *)
Definition reaches_init (c : call) : bool :=
  is_init c || is_get_max_output_size c || is_submit_command c.

Definition do_call {W : Type} (fw : firmware W) (c : call) : M W grub_err_t :=
  match c with
  | call_init => grub_ieee1275_tpm_init fw
  | call_get_max_output_size size =>
      r <- grub_tcg2_get_max_output_size fw size ;; ret (fst r)
  | call_submit_command input_size input output_size output =>
      grub_tcg2_submit_command fw input_size input output_size output
  end.

(** A call together with the warnings it surfaced: the [grub_error] events
    it appended to the trace. *)
Definition observe {W : Type} (m : M W grub_err_t)
  : M W (grub_err_t * list event) :=
  fun s =>
    let (e, s') := m s in
    ((e, filter is_grub_error (skipn (List.length (trace s)) (trace s'))), s').

Fixpoint run {W : Type} (fw : firmware W) (cs : list call)
  : M W (list (grub_err_t * list event)) :=
  match cs with
  | [] => ret []
  | c :: cs' =>
      r <- observe (do_call fw c) ;;
      rs <- run fw cs' ;;
      ret (r :: rs)
  end.

(** The results of the calls selected by [p]. *)
Definition results_of {A : Type} (p : call -> bool) (cs : list call)
  (rs : list A) : list A :=
  map snd (filter (fun cr => p (fst cr)) (combine cs rs)).





(** [grows_without p s s']: from [s] to [s'] the trace grew, by events that
    all fail the test [p]. *)
Definition grows_without {W : Type} (p : event -> bool) (s s' : session W)
  : Prop :=
  exists u, trace s' = trace s ++ u /\ filter p u = [].

(** ** Firmware test doubles

    A configurable firmware whose state is the number of open attempts made
    so far.  The first [cfg_open_failures] opens fail; a later open stores
    [cfg_handle].  The device node resolves when [cfg_node] is set and its
    "compatible" property is [cfg_compatible].  Both methods return
    [cfg_entry_rc] from the entry point and [cfg_catch] in the catch cell;
    get-maximum-cmd-size reports [cfg_size]; pass-through-to-tpm overwrites
    the start of the command buffer with [cfg_response] and reports its
    length. *)
Record double_cfg : Type := {
  cfg_open_failures : nat;
  cfg_handle : Z;
  cfg_node : bool;
  cfg_compatible : option string;
  cfg_entry_rc : Z;
  cfg_catch : Z;
  cfg_size : Z;
  cfg_response : list byte
}.

Definition store_bytes (addr : Z) (bs : list byte) (m : memory) : memory :=
  fun a =>
    if (addr <=? a) && (a <? addr + Z.of_nat (List.length bs))
    then nth (Z.to_nat (a - addr)) bs x00
    else m a.

Definition double (c : double_cfg) : firmware nat := {|
  fw_open := fun _ old n =>
    if (n <? cfg_open_failures c)%nat then (-1, old, S n)
    else (0, cfg_handle c, S n);
  fw_finddevice := fun _ n =>
    if cfg_node c then (0, 3, n) else (-1, 0, n);
  fw_get_property := fun _ _ len n =>
    match cfg_compatible c with
    | Some s =>
        (0, firstn (Z.to_nat len) (lit s ++ repeat x00 (Z.to_nat len)), n)
    | None => (-1, repeat x00 (Z.to_nat len), n)
    end;
  fw_entry_get_maximum_cmd_size := fun a n =>
    (cfg_entry_rc c,
     {| gm_common := gm_common a; gm_method := gm_method a;
        gm_ihandle := gm_ihandle a; gm_catch_result := cfg_catch c;
        gm_size := cfg_size c |}, n);
  fw_entry_pass_through_to_tpm := fun a m n =>
    (cfg_entry_rc c,
     {| pt_common := pt_common a; pt_method := pt_method a;
        pt_ihandle := pt_ihandle a; pt_buf_size := pt_buf_size a;
        pt_buf_addr := pt_buf_addr a; pt_catch_result := cfg_catch c;
        pt_resp_size := Z.of_nat (List.length (cfg_response c)) |},
     store_bytes (pt_buf_addr a) (cfg_response c) m, n)
|}.

(** A virtual TPM 2.0 that answers every command with four bytes. *)
Definition vtpm20 : double_cfg := {|
  cfg_open_failures := 0;
  cfg_handle := 7;
  cfg_node := true;
  cfg_compatible := Some "IBM,vtpm20";
  cfg_entry_rc := 0;
  cfg_catch := 0;
  cfg_size := 4096;
  cfg_response := [x80; x01; x00; x0a]
|}.

(** The same device behind firmware that knows neither method; a dispatch
    still scribbles over the start of the command buffer. *)
Definition old_firmware : double_cfg := {|
  cfg_open_failures := 0;
  cfg_handle := 7;
  cfg_node := true;
  cfg_compatible := Some "IBM,vtpm20";
  cfg_entry_rc := 0;
  cfg_catch := 1;
  cfg_size := 0;
  cfg_response := [xff; xff]
|}.

(** A device whose first open fails and whose second open succeeds. *)
Definition late_device : double_cfg := {|
  cfg_open_failures := 1;
  cfg_handle := 7;
  cfg_node := true;
  cfg_compatible := Some "IBM,vtpm20";
  cfg_entry_rc := 0;
  cfg_catch := 0;
  cfg_size := 4096;
  cfg_response := [x80; x01; x00; x0a]
|}.

(** A device whose entry point refuses every call. *)
Definition dead_entry : double_cfg := {|
  cfg_open_failures := 0;
  cfg_handle := 7;
  cfg_node := true;
  cfg_compatible := Some "IBM,vtpm20";
  cfg_entry_rc := -1;
  cfg_catch := 0;
  cfg_size := 4096;
  cfg_response := [x80; x01; x00; x0a]
|}.

(** A TPM 1.2 device node. *)
Definition vtpm12 : double_cfg := {|
  cfg_open_failures := 0;
  cfg_handle := 7;
  cfg_node := true;
  cfg_compatible := Some "IBM,vtpm";
  cfg_entry_rc := 0;
  cfg_catch := 0;
  cfg_size := 4096;
  cfg_response := [x80; x01; x00; x0a]
|}.

(** Caller memory holding the bytes 1, 2, 3, ... from address 16 on and
    zero below. *)
Definition ramp : memory :=
  fun a => match Byte.of_N (Z.to_N (a - 15) mod 256) with
           | Some b => b
           | None => x00
           end.

(** ** Further observations on sessions *)

Definition is_finddevice (e : event) : bool :=
  match e with ev_finddevice _ => true | _ => false end.

Definition is_get_property (e : event) : bool :=
  match e with ev_get_property _ _ _ => true | _ => false end.

(** The warning whose text is [msg]. *)
Definition is_warning (msg : string) (e : event) : bool :=
  match e with
  | ev_grub_error _ m => String.eqb m msg
  | _ => false
  end.

(** The events a call appended to the trace, by the sessions before and
    after it. *)
Definition appended {W : Type} (s s' : session W) : list event :=
  skipn (List.length (trace s)) (trace s').

(** What every session reached from [boot] satisfies.  The flags are 0 or
    1, the version is 0 or 2, each warning flag counts the warnings of its
    kind in the trace; before the first successful open the handle is the
    invalid sentinel, the version is 0 and nothing but opens has happened;
    after it the node was looked up exactly once. *)
Definition session_inv {W : Type} (s : session W) : Prop :=
  (init_success s = 0 \/ init_success s = 1) /\
  (grub_ieee1275_tpm_version s = 0 \/ grub_ieee1275_tpm_version s = 2) /\
  (error_displayed_size s = 0 \/ error_displayed_size s = 1) /\
  (error_displayed_submit s = 0 \/ error_displayed_submit s = 1) /\
  error_displayed_size s
    = Z.of_nat (count (is_warning msg_get_maximum_cmd_size) (trace s)) /\
  error_displayed_submit s
    = Z.of_nat (count (is_warning msg_pass_through_to_tpm) (trace s)) /\
  (count is_grub_error (trace s)
   = count (is_warning msg_get_maximum_cmd_size) (trace s)
     + count (is_warning msg_pass_through_to_tpm) (trace s))%nat /\
  (init_success s = 0 ->
   grub_ieee1275_tpm_ihandle s = IEEE1275_IHANDLE_INVALID /\
   grub_ieee1275_tpm_version s = 0 /\
   count is_finddevice (trace s) = 0%nat /\
   count is_get_property (trace s) = 0%nat /\
   count is_call_entry (trace s) = 0%nat /\
   count is_grub_error (trace s) = 0%nat /\
   count is_memcpy (trace s) = 0%nat) /\
  (init_success s <> 0 ->
   (1 <= count is_open (trace s))%nat /\
   count is_finddevice (trace s) = 1%nat /\
   (count is_get_property (trace s) <= 1)%nat).

(** The warning a call of each kind surfaces when it returns bad-device. *)
Definition warning_of (c : call) : list event :=
  match c with
  | call_init => []
  | call_get_max_output_size _ =>
      [ev_grub_error GRUB_ERR_BAD_DEVICE msg_get_maximum_cmd_size]
  | call_submit_command _ _ _ _ =>
      [ev_grub_error GRUB_ERR_BAD_DEVICE msg_pass_through_to_tpm]
  end.

(** * Properties *)

Example vtpm20_init :
  let r := grub_ieee1275_tpm_init (double vtpm20) (boot ramp O) in
  fst r = GRUB_ERR_NONE /\
  grub_ieee1275_tpm_ihandle (snd r) = 7 /\
  grub_ieee1275_tpm_version (snd r) = 2 /\
  trace (snd r) =
    [ev_open "/vdevice/vtpm"; ev_finddevice "/vdevice/vtpm";
     ev_get_property 3 "compatible" 20].
Proof. vm_compute. repeat split. Qed.

Example vtpm12_init :
  let r := grub_ieee1275_tpm_init (double vtpm12) (boot ramp O) in
  fst r = GRUB_ERR_NONE /\ grub_ieee1275_tpm_version (snd r) = 0.
Proof. vm_compute. repeat split. Qed.

Example vtpm20_max_size :
  fst (grub_tcg2_get_max_output_size (double vtpm20) 0 (boot ramp O))
  = (GRUB_ERR_NONE, 4096).
Proof. reflexivity. Qed.

Example vtpm20_submit :
  let r := grub_tcg2_submit_command (double vtpm20) 8 16 8 32 (boot ramp O) in
  fst r = GRUB_ERR_NONE /\
  map (mem (snd r)) [16; 17; 18; 19; 20] = [x80; x01; x00; x0a; x05] /\
  map (mem (snd r)) [32; 33; 34; 35; 36] = [x80; x01; x00; x0a; x15].
Proof. vm_compute. repeat split. Qed.

Example old_firmware_run :
  fst (run (double old_firmware)
         [call_get_max_output_size 0; call_submit_command 8 16 8 32;
          call_get_max_output_size 0; call_submit_command 8 16 8 32]
         (boot ramp O))
  = [(GRUB_ERR_BAD_DEVICE,
      [ev_grub_error GRUB_ERR_BAD_DEVICE msg_get_maximum_cmd_size]);
     (GRUB_ERR_BAD_DEVICE,
      [ev_grub_error GRUB_ERR_BAD_DEVICE msg_pass_through_to_tpm]);
     (GRUB_ERR_INVALID_COMMAND, []);
     (GRUB_ERR_INVALID_COMMAND, [])].
Proof. vm_compute. reflexivity. Qed.

(** ** Proof tools *)

Ltac tpm_unfold :=
  unfold grub_tcg2_submit_command, grub_tcg2_get_max_output_size,
    grub_ieee1275_tpm_init, tpm_get_tpm_version, grub_error, grub_memcpy,
    IEEE1275_CALL_ENTRY_FN_pass_through_to_tpm,
    IEEE1275_CALL_ENTRY_FN_get_maximum_cmd_size,
    grub_ieee1275_get_property, grub_ieee1275_finddevice, grub_ieee1275_open,
    bind, ret, gets, modify in *.

Ltac fw_step :=
  match goal with
  | |- context [fw_open ?f ?p ?h ?w] =>
      destruct (fw_open f p h w) as [[? ?] ?] eqn:?
  | |- context [fw_finddevice ?f ?p ?w] =>
      destruct (fw_finddevice f p w) as [[? ?] ?] eqn:?
  | |- context [fw_get_property ?f ?ph ?p ?l ?w] =>
      destruct (fw_get_property f ph p l w) as [[? ?] ?] eqn:?
  | |- context [fw_entry_get_maximum_cmd_size ?f ?a ?w] =>
      destruct (fw_entry_get_maximum_cmd_size f a w) as [[? ?] ?] eqn:?
  | |- context [fw_entry_pass_through_to_tpm ?f ?a ?m ?w] =>
      destruct (fw_entry_pass_through_to_tpm f a m w) as [[[? ?] ?] ?] eqn:?
  | |- context [if ?b then _ else _] => destruct b eqn:?
  end.

Ltac tpm_cases := tpm_unfold; cbn; repeat (fw_step; cbn in * ).

Section Properties.

Context {W : Type} (fw : firmware W).

(** *** Counting events *)

Lemma count_app (p : event -> bool) (t u : list event) :
  count p (t ++ u) = (count p t + count p u)%nat.
Proof. unfold count. now rewrite filter_app, length_app. Qed.

Lemma skipn_length_app (t u : list event) :
  skipn (List.length t) (t ++ u) = u.
Proof. induction t as [|e t IH]; cbn; auto. Qed.

(** *** The string comparison *)

Lemma byte_to_N_inj (a b : byte) : Byte.to_N a = Byte.to_N b -> a = b.
Proof.
  intros H. pose proof (Byte.of_to_N a) as Ha. pose proof (Byte.of_to_N b) as Hb.
  rewrite H in Ha. congruence.
Qed.

Lemma byte_diff_zero (a b : byte) :
  Z.of_N (Byte.to_N a) - Z.of_N (Byte.to_N b) = 0 <-> a = b.
Proof.
  split; [intros H; apply byte_to_N_inj; lia | intros ->; lia].
Qed.

Lemma byte_eqb_eq (a b : byte) : Byte.eqb a b = true <-> a = b.
Proof.
  split; [apply Byte.byte_dec_bl | apply Byte.byte_dec_lb].
Qed.

Lemma byte_eqb_neq (a b : byte) : Byte.eqb a b = false <-> a <> b.
Proof.
  rewrite <- byte_eqb_eq. destruct (Byte.eqb a b); intuition congruence.
Qed.

(** [grub_strcmp] returns 0 exactly when the C string in the first array is
    the second string, for a second string without NUL. *)
Lemma grub_strcmp_zero (l b : list byte) :
  ~ In x00 l ->
  grub_strcmp b l = 0 <-> c_str b = l.
Proof.
  revert b. induction l as [|c l IH]; intros b Hl.
  - destruct b as [|d b]; cbn -[Byte.to_N Byte.eqb Z.sub Z.of_N].
    + change (Byte.eqb x00 x00) with true. cbn -[Byte.to_N Z.sub Z.of_N].
      rewrite byte_diff_zero. tauto.
    + change (Byte.eqb x00 x00) with true.
      rewrite andb_false_r. cbn -[Byte.to_N Byte.eqb Z.sub Z.of_N].
      rewrite byte_diff_zero.
      destruct (Byte.eqb d x00) eqn:E.
      * apply byte_eqb_eq in E. tauto.
      * apply byte_eqb_neq in E. split; [tauto | discriminate].
  - assert (Hc : c <> x00) by (intros ->; apply Hl; now left).
    assert (Hl' : ~ In x00 l) by (intros H; apply Hl; now right).
    destruct b as [|d b]; cbn -[Byte.to_N Byte.eqb Z.sub Z.of_N].
    + change (Byte.eqb x00 x00) with true.
      cbn -[Byte.to_N Byte.eqb Z.sub Z.of_N].
      rewrite byte_diff_zero. split; [congruence | discriminate].
    + destruct (Byte.eqb d x00) eqn:E; cbn -[Byte.to_N Byte.eqb Z.sub Z.of_N].
      * apply byte_eqb_eq in E. subst d. rewrite byte_diff_zero.
        split; [congruence | discriminate].
      * apply byte_eqb_neq in Hc. rewrite Hc.
        cbn -[Byte.to_N Byte.eqb Z.sub Z.of_N].
        destruct (Byte.eqb d c) eqn:E'.
        -- apply byte_eqb_eq in E'. subst d. rewrite (IH b Hl').
           split; [intros ->; reflexivity | intros H; now injection H].
        -- apply byte_eqb_neq in E'. rewrite byte_diff_zero.
           split; [tauto | intros H; injection H; intros; subst; tauto].
Qed.

Lemma vtpm20_no_nul : ~ In x00 (lit "IBM,vtpm20").
Proof. cbn. intuition discriminate. Qed.

(** *** Initialisation *)

Lemma tpm_init_latched (s : session W) :
  init_success s <> 0 ->
  grub_ieee1275_tpm_init fw s = (GRUB_ERR_NONE, s).
Proof.
  intros H. tpm_unfold. apply Z.eqb_neq in H. now rewrite H.
Qed.

Lemma tpm_init_open_failed (s : session W) rc h w :
  init_success s = 0 ->
  fw_open fw "/vdevice/vtpm" (grub_ieee1275_tpm_ihandle s) (world s)
    = (rc, h, w) ->
  rc < 0 ->
  grub_ieee1275_tpm_init fw s =
    (GRUB_ERR_UNKNOWN_DEVICE,
     set_ihandle IEEE1275_IHANDLE_INVALID
       (set_world w (log (ev_open "/vdevice/vtpm") s))).
Proof.
  intros Hi Ho Hrc. tpm_unfold. rewrite Hi. cbn. rewrite Ho.
  apply Z.ltb_lt in Hrc. rewrite Hrc. reflexivity.
Qed.

Lemma tpm_init_open_ok (s : session W) rc h w :
  init_success s = 0 ->
  fw_open fw "/vdevice/vtpm" (grub_ieee1275_tpm_ihandle s) (world s)
    = (rc, h, w) ->
  0 <= rc ->
  grub_ieee1275_tpm_init fw s =
    (GRUB_ERR_NONE,
     snd (tpm_get_tpm_version fw
            (set_init_success 1
               (set_ihandle h
                  (set_world w (log (ev_open "/vdevice/vtpm") s)))))).
Proof.
  intros Hi Ho Hrc. unfold grub_ieee1275_tpm_init, grub_ieee1275_open,
    bind, gets, modify, ret.
  rewrite Hi. cbn. rewrite Ho.
  apply Z.ltb_ge in Hrc. rewrite Hrc.
  now destruct (tpm_get_tpm_version fw _).
Qed.

Lemma grows_without_refl p (s : session W) : grows_without p s s.
Proof. exists []. now rewrite app_nil_r. Qed.

Lemma grows_without_trans p (s1 s2 s3 : session W) :
  grows_without p s1 s2 -> grows_without p s2 s3 -> grows_without p s1 s3.
Proof.
  intros [u [Hu Fu]] [v [Hv Fv]]. exists (u ++ v). split.
  - now rewrite Hv, Hu, app_assoc.
  - now rewrite filter_app, Fu, Fv.
Qed.

Lemma grows_without_count p (s s' : session W) :
  grows_without p s s' -> count p (trace s') = count p (trace s).
Proof.
  intros [u [Hu Fu]]. rewrite Hu, count_app. unfold count at 2.
  rewrite Fu. cbn. lia.
Qed.

Ltac grows :=
  match goal with
  | |- grows_without _ ?s ?s => apply grows_without_refl
  | |- grows_without _ _ _ =>
      eexists; split;
      [cbn; rewrite <- ?app_assoc; reflexivity | reflexivity]
  end.

Lemma tpm_get_tpm_version_frame (s : session W) :
  let s' := snd (tpm_get_tpm_version fw s) in
  grub_ieee1275_tpm_ihandle s' = grub_ieee1275_tpm_ihandle s /\
  init_success s' = init_success s /\
  error_displayed_size s' = error_displayed_size s /\
  error_displayed_submit s' = error_displayed_submit s /\
  mem s' = mem s /\
  grows_without is_open s s' /\
  grows_without is_call_entry s s' /\
  grows_without is_grub_error s s' /\
  grows_without is_memcpy s s'.
Proof.
  tpm_cases; repeat split; grows.
Qed.

Lemma tpm_init_frame (s : session W) :
  let s' := snd (grub_ieee1275_tpm_init fw s) in
  error_displayed_size s' = error_displayed_size s /\
  error_displayed_submit s' = error_displayed_submit s /\
  mem s' = mem s /\
  grows_without is_call_entry s s' /\
  grows_without is_grub_error s s' /\
  grows_without is_memcpy s s'.
Proof.
  tpm_cases; repeat split; grows.
Qed.

(** *** The two operations, by cases on what initialisation returned *)

Lemma get_max_output_size_init_failed size (s s1 : session W) err :
  grub_ieee1275_tpm_init fw s = (err, s1) ->
  err <> GRUB_ERR_NONE ->
  grub_tcg2_get_max_output_size fw size s = ((err, size), s1).
Proof.
  intros Hi He. unfold grub_tcg2_get_max_output_size, bind, ret.
  rewrite Hi. destruct err; cbn; congruence.
Qed.

Lemma get_max_output_size_dispatched size (s s1 : session W) rc a w :
  grub_ieee1275_tpm_init fw s = (GRUB_ERR_NONE, s1) ->
  fw_entry_get_maximum_cmd_size fw
    (get_maximum_cmd_size_args (grub_ieee1275_tpm_ihandle s1)) (world s1)
    = (rc, a, w) ->
  grub_tcg2_get_max_output_size fw size s =
    let s2 := set_world w (log (ev_call_entry "get-maximum-cmd-size") s1) in
    if rc =? -1 then ((GRUB_ERR_INVALID_COMMAND, size), s2)
    else if negb (gm_catch_result a =? 0) then
      if error_displayed_size s1 =? 0 then
        ((GRUB_ERR_BAD_DEVICE, size),
         log (ev_grub_error GRUB_ERR_BAD_DEVICE msg_get_maximum_cmd_size)
           (set_error_displayed_size (error_displayed_size s1 + 1) s2))
      else ((GRUB_ERR_INVALID_COMMAND, size), s2)
    else ((GRUB_ERR_NONE, gm_size a), s2).
Proof.
  intros Hi Hf. unfold grub_tcg2_get_max_output_size, bind, ret, gets.
  rewrite Hi. cbn.
  unfold IEEE1275_CALL_ENTRY_FN_get_maximum_cmd_size. rewrite Hf. cbn.
  destruct (rc =? -1); [reflexivity | ].
  destruct (gm_catch_result a =? 0); cbn; [reflexivity | ].
  destruct (error_displayed_size s1 =? 0); reflexivity.
Qed.

Lemma submit_command_rejected input_size input output_size output
  (s : session W) :
  is_submit_command (call_submit_command input_size input output_size output)
    = false ->
  grub_tcg2_submit_command fw input_size input output_size output s
    = (GRUB_ERR_BAD_ARGUMENT, s).
Proof.
  unfold is_submit_command. intros H. apply negb_false_iff in H.
  unfold grub_tcg2_submit_command. now rewrite H.
Qed.

Lemma submit_command_init_failed input_size input output_size output
  (s s1 : session W) err :
  is_submit_command (call_submit_command input_size input output_size output)
    = true ->
  grub_ieee1275_tpm_init fw s = (err, s1) ->
  err <> GRUB_ERR_NONE ->
  grub_tcg2_submit_command fw input_size input output_size output s
    = (err, s1).
Proof.
  unfold is_submit_command. intros H Hi He. apply negb_true_iff in H.
  unfold grub_tcg2_submit_command, bind, ret. rewrite H, Hi.
  destruct err; cbn; congruence.
Qed.

Lemma submit_command_dispatched input_size input output_size output
  (s s1 : session W) rc a m w :
  is_submit_command (call_submit_command input_size input output_size output)
    = true ->
  grub_ieee1275_tpm_init fw s = (GRUB_ERR_NONE, s1) ->
  fw_entry_pass_through_to_tpm fw
    (pass_through_to_tpm_args (grub_ieee1275_tpm_ihandle s1) input_size input)
    (mem s1) (world s1) = (rc, a, m, w) ->
  grub_tcg2_submit_command fw input_size input output_size output s =
    let s2 :=
      set_mem m (set_world w (log (ev_call_entry "pass-through-to-tpm") s1)) in
    if rc =? -1 then (GRUB_ERR_INVALID_COMMAND, s2)
    else if negb (pt_catch_result a =? 0) then
      if error_displayed_submit s1 =? 0 then
        (GRUB_ERR_BAD_DEVICE,
         log (ev_grub_error GRUB_ERR_BAD_DEVICE msg_pass_through_to_tpm)
           (set_error_displayed_submit (error_displayed_submit s1 + 1) s2))
      else (GRUB_ERR_INVALID_COMMAND, s2)
    else
      (GRUB_ERR_NONE,
       set_mem (mem_copy output input (pt_resp_size a) m)
         (log (ev_memcpy output input (pt_resp_size a)) s2)).
Proof.
  unfold is_submit_command. intros H Hi Hf. apply negb_true_iff in H.
  unfold grub_tcg2_submit_command, bind, ret, gets. rewrite H, Hi. cbn.
  unfold IEEE1275_CALL_ENTRY_FN_pass_through_to_tpm. rewrite Hf. cbn.
  destruct (rc =? -1); [reflexivity | ].
  destruct (pt_catch_result a =? 0); cbn; [reflexivity | ].
  destruct (error_displayed_submit s1 =? 0); reflexivity.
Qed.

Lemma is_submit_command_true input_size input output_size output :
  input_size <> 0 -> input <> NULL -> output_size <> 0 -> output <> NULL ->
  is_submit_command (call_submit_command input_size input output_size output)
    = true.
Proof.
  intros H1 H2 H3 H4. unfold is_submit_command.
  apply Z.eqb_neq in H1, H2, H3, H4. now rewrite H1, H2, H3, H4.
Qed.

Lemma is_submit_command_false input_size input output_size output :
  input_size = 0 \/ input = NULL \/ output_size = 0 \/ output = NULL ->
  is_submit_command (call_submit_command input_size input output_size output)
    = false.
Proof.
  intros H. unfold is_submit_command. apply negb_false_iff.
  rewrite !orb_true_iff, !Z.eqb_eq. tauto.
Qed.

(** *** Argument checking *)

(** C4: a submission whose input size is zero, whose input is null, whose
    output size is zero or whose output is null returns the bad-argument
    error at once; no collaborator is called, so the number of firmware
    dispatches recorded in the trace is what it was, and stays 0 if it
    was 0. *)
Theorem submit_command_bad_argument_no_dispatch
  input_size input output_size output (s : session W) :
  input_size = 0 \/ input = NULL \/ output_size = 0 \/ output = NULL ->
  let r := grub_tcg2_submit_command fw input_size input output_size output s in
  fst r = GRUB_ERR_BAD_ARGUMENT /\
  trace (snd r) = trace s /\
  count is_call_entry (trace (snd r)) = count is_call_entry (trace s) /\
  (count is_call_entry (trace s) = 0%nat ->
   count is_call_entry (trace (snd r)) = 0%nat).
Proof.
  intros H r. subst r.
  rewrite (submit_command_rejected _ _ _ _ _ (is_submit_command_false _ _ _ _ H)).
  cbn. auto.
Qed.

(** C10: a submission rejected for its arguments returns before
    [grub_ieee1275_tpm_init] is reached: the session after the call is the
    session before it, so the cached handle, the interface version, the
    initialisation flag and both warning flags are unchanged and no open
    of the device was attempted. *)
Theorem submit_command_bad_argument_no_side_effect
  input_size input output_size output (s : session W) :
  input_size = 0 \/ input = NULL \/ output_size = 0 \/ output = NULL ->
  let r := grub_tcg2_submit_command fw input_size input output_size output s in
  r = (GRUB_ERR_BAD_ARGUMENT, s) /\
  grub_ieee1275_tpm_ihandle (snd r) = grub_ieee1275_tpm_ihandle s /\
  grub_ieee1275_tpm_version (snd r) = grub_ieee1275_tpm_version s /\
  init_success (snd r) = init_success s /\
  error_displayed_size (snd r) = error_displayed_size s /\
  error_displayed_submit (snd r) = error_displayed_submit s /\
  count is_open (trace (snd r)) = count is_open (trace s).
Proof.
  intros H r. subst r.
  rewrite (submit_command_rejected _ _ _ _ _ (is_submit_command_false _ _ _ _ H)).
  cbn. repeat split.
Qed.

(** *** Dispatch failure *)

(** C7: when the firmware entry point returns -1, either operation returns
    the invalid-command error at once.  The session it leaves is the one
    after initialisation with the dispatch recorded and the firmware's
    effects applied; the frame [a] the firmware left, with its catch cell
    and result cell, occurs nowhere in the result, the caller's size
    variable is unchanged and no copy to the output buffer is made. *)
Theorem dispatch_failure_invalid_command :
  (forall size (s s1 : session W) a w,
      grub_ieee1275_tpm_init fw s = (GRUB_ERR_NONE, s1) ->
      fw_entry_get_maximum_cmd_size fw
        (get_maximum_cmd_size_args (grub_ieee1275_tpm_ihandle s1)) (world s1)
        = (-1, a, w) ->
      grub_tcg2_get_max_output_size fw size s =
        ((GRUB_ERR_INVALID_COMMAND, size),
         set_world w (log (ev_call_entry "get-maximum-cmd-size") s1))) /\
  (forall input_size input output_size output (s s1 : session W) a m w,
      input_size <> 0 -> input <> NULL -> output_size <> 0 -> output <> NULL ->
      grub_ieee1275_tpm_init fw s = (GRUB_ERR_NONE, s1) ->
      fw_entry_pass_through_to_tpm fw
        (pass_through_to_tpm_args (grub_ieee1275_tpm_ihandle s1)
           input_size input)
        (mem s1) (world s1) = (-1, a, m, w) ->
      grub_tcg2_submit_command fw input_size input output_size output s =
        (GRUB_ERR_INVALID_COMMAND,
         set_mem m
           (set_world w (log (ev_call_entry "pass-through-to-tpm") s1)))).
Proof.
  split.
  - intros size s s1 a w Hi Hf.
    now rewrite (get_max_output_size_dispatched _ _ _ _ _ _ Hi Hf).
  - intros input_size input output_size output s s1 a m w H1 H2 H3 H4 Hi Hf.
    now rewrite (submit_command_dispatched _ _ _ _ _ _ _ _ _ _
                   (is_submit_command_true _ _ _ _ H1 H2 H3 H4) Hi Hf).
Qed.

(** *** The size query *)

(** C8: when initialisation succeeds, the entry point does not return -1
    and the catch cell is clear, the size query returns success and the
    caller's size variable receives the size cell as the firmware left it,
    whatever its value. *)
Theorem get_max_output_size_verbatim size (s s1 : session W) rc a w :
  grub_ieee1275_tpm_init fw s = (GRUB_ERR_NONE, s1) ->
  fw_entry_get_maximum_cmd_size fw
    (get_maximum_cmd_size_args (grub_ieee1275_tpm_ihandle s1)) (world s1)
    = (rc, a, w) ->
  rc <> -1 ->
  gm_catch_result a = 0 ->
  grub_tcg2_get_max_output_size fw size s =
    ((GRUB_ERR_NONE, gm_size a),
     set_world w (log (ev_call_entry "get-maximum-cmd-size") s1)).
Proof.
  intros Hi Hf Hrc Hc.
  rewrite (get_max_output_size_dispatched _ _ _ _ _ _ Hi Hf). cbn zeta.
  apply Z.eqb_neq in Hrc. rewrite Hrc, Hc. reflexivity.
Qed.

(** *** Command submission *)

Lemma mem_copy_inside dest src n m i :
  0 <= i < n -> mem_copy dest src n m (dest + i) = m (src + i).
Proof.
  intros H. unfold mem_copy.
  replace ((dest <=? dest + i) && (dest + i <? dest + n)) with true.
  - f_equal. lia.
  - symmetry. apply andb_true_iff. split; [apply Z.leb_le | apply Z.ltb_lt]; lia.
Qed.

Lemma mem_copy_outside dest src n m x :
  ~ (dest <= x < dest + n) -> mem_copy dest src n m x = m x.
Proof.
  intros H. unfold mem_copy.
  destruct ((dest <=? x) && (x <? dest + n)) eqn:E; [ | reflexivity].
  apply andb_true_iff in E. destruct E as [E1 E2].
  apply Z.leb_le in E1. apply Z.ltb_lt in E2. lia.
Qed.

(** C3: when initialisation succeeds, the entry point does not return -1
    and the catch cell is clear, a submission returns success after one
    copy of [R] bytes, [R] the response-length cell, from the input buffer
    to the output buffer.  With [m] the memory as the firmware left it:
    byte [i < R] of the output buffer is byte [i] of the input buffer in
    [m]; every byte outside the first [R] of the output buffer is as in
    [m], hence as before the call wherever the firmware kept it; and where
    the input buffer does not run into the copied range it still equals
    the output buffer afterwards. *)
Theorem submit_command_copies_response
  input_size input output_size output (s s1 : session W) rc a m w :
  input_size <> 0 -> input <> NULL -> output_size <> 0 -> output <> NULL ->
  grub_ieee1275_tpm_init fw s = (GRUB_ERR_NONE, s1) ->
  fw_entry_pass_through_to_tpm fw
    (pass_through_to_tpm_args (grub_ieee1275_tpm_ihandle s1) input_size input)
    (mem s1) (world s1) = (rc, a, m, w) ->
  rc <> -1 ->
  pt_catch_result a = 0 ->
  let R := pt_resp_size a in
  let r := grub_tcg2_submit_command fw input_size input output_size output s in
  fst r = GRUB_ERR_NONE /\
  trace (snd r) =
    trace s1 ++ [ev_call_entry "pass-through-to-tpm"; ev_memcpy output input R] /\
  mem (snd r) = mem_copy output input R m /\
  (forall i, 0 <= i < R -> mem (snd r) (output + i) = m (input + i)) /\
  (forall x, ~ (output <= x < output + R) -> mem (snd r) x = m x) /\
  (forall x, ~ (output <= x < output + R) -> m x = mem s x ->
             mem (snd r) x = mem s x) /\
  (forall i, 0 <= i < R -> ~ (output <= input + i < output + R) ->
             mem (snd r) (output + i) = mem (snd r) (input + i)).
Proof.
  intros H1 H2 H3 H4 Hi Hf Hrc Hc R r. subst r.
  rewrite (submit_command_dispatched _ _ _ _ _ _ _ _ _ _
             (is_submit_command_true _ _ _ _ H1 H2 H3 H4) Hi Hf).
  cbn zeta. apply Z.eqb_neq in Hrc. rewrite Hrc, Hc. cbn.
  fold R. rewrite <- app_assoc. cbn.
  split; [reflexivity | ]. split; [reflexivity | ]. split; [reflexivity | ].
  split; [intros i Hr; now apply mem_copy_inside | ].
  split; [intros x Hx; now apply mem_copy_outside | ].
  split.
  - intros x Hx E. rewrite <- E. now apply mem_copy_outside.
  - intros i Hr Hx. rewrite mem_copy_inside by assumption.
    now rewrite (mem_copy_outside _ _ _ _ _ Hx).
Qed.

(** *** Error returns write nothing *)

(** C9: on an error return of the size query the caller's size variable
    holds what it held before.  On an error return of a submission no copy
    was made: the trace gained no [grub_memcpy], caller memory is what it
    was before the call or what the firmware made of it during the
    dispatch, and every byte that the dispatch of this command leaves
    alone, the output buffer among them, is unchanged. *)
Theorem error_return_writes_nothing :
  (forall size (s : session W),
      let r := grub_tcg2_get_max_output_size fw size s in
      fst (fst r) <> GRUB_ERR_NONE -> snd (fst r) = size) /\
  (forall input_size input output_size output (s : session W),
      let r :=
        grub_tcg2_submit_command fw input_size input output_size output s in
      fst r <> GRUB_ERR_NONE ->
      grows_without is_memcpy s (snd r) /\
      (mem (snd r) = mem s \/
       exists h w rc a w',
         fw_entry_pass_through_to_tpm fw
           (pass_through_to_tpm_args h input_size input) (mem s) w
         = (rc, a, mem (snd r), w')) /\
      (forall x,
          (forall h w,
              snd (fst (fw_entry_pass_through_to_tpm fw
                          (pass_through_to_tpm_args h input_size input)
                          (mem s) w)) x = mem s x) ->
          mem (snd r) x = mem s x)).
Proof.
  split.
  - intros size s r. subst r.
    destruct (grub_ieee1275_tpm_init fw s) as [err s1] eqn:Hi.
    destruct (grub_err_eqb err GRUB_ERR_NONE) eqn:He.
    + destruct err; try discriminate.
      destruct (fw_entry_get_maximum_cmd_size fw
                  (get_maximum_cmd_size_args (grub_ieee1275_tpm_ihandle s1))
                  (world s1)) as [[rc a] w] eqn:Hf.
      rewrite (get_max_output_size_dispatched _ _ _ _ _ _ Hi Hf). cbn zeta.
      destruct (rc =? -1); [reflexivity | ].
      destruct (gm_catch_result a =? 0); cbn; [congruence | ].
      destruct (error_displayed_size s1 =? 0); reflexivity.
    + rewrite (get_max_output_size_init_failed size _ _ _ Hi); [reflexivity | ].
      intros ->. discriminate.
  - intros input_size input output_size output s r. subst r.
    destruct (is_submit_command
                (call_submit_command input_size input output_size output))
      eqn:Hv.
    2:{ rewrite (submit_command_rejected _ _ _ _ _ Hv). cbn. intros _.
        split; [apply grows_without_refl | ]. split; [now left | reflexivity]. }
    destruct (grub_ieee1275_tpm_init fw s) as [err s1] eqn:Hi.
    pose proof (tpm_init_frame s) as F. rewrite Hi in F. cbn in F.
    destruct F as (_ & _ & Fm & _ & _ & Fc).
    destruct (grub_err_eqb err GRUB_ERR_NONE) eqn:He.
    + destruct err; try discriminate.
      destruct (fw_entry_pass_through_to_tpm fw
                  (pass_through_to_tpm_args (grub_ieee1275_tpm_ihandle s1)
                     input_size input) (mem s1) (world s1))
        as [[[rc a] m] w] eqn:Hf.
      rewrite (submit_command_dispatched _ _ _ _ _ _ _ _ _ _ Hv Hi Hf).
      cbn zeta.
      rewrite Fm in Hf.
      assert (Hm : forall x,
                 (forall h w,
                     snd (fst (fw_entry_pass_through_to_tpm fw
                                 (pass_through_to_tpm_args h input_size input)
                                 (mem s) w)) x = mem s x) ->
                 m x = mem s x).
      { intros x Hx.
        specialize (Hx (grub_ieee1275_tpm_ihandle s1) (world s1)).
        now rewrite Hf in Hx. }
      destruct (rc =? -1); [ | destruct (pt_catch_result a =? 0); cbn;
                               [congruence | destruct (error_displayed_submit s1 =? 0)]];
        cbn; intros _;
        (split; [eapply grows_without_trans; [exact Fc | grows] | ]);
        (split; [right; do 5 eexists; exact Hf | exact Hm]).
    + rewrite (submit_command_init_failed _ _ _ _ _ _ _ Hv Hi)
        by (intros ->; discriminate).
      cbn. intros _. split; [exact Fc | ]. split; [now left | ].
      intros x _. now rewrite Fm.
Qed.

(** *** Version detection *)

Lemma tpm_get_tpm_version_spec (s : session W) rc ph w1 rc' buffer w2 :
  fw_finddevice fw "/vdevice/vtpm" (world s) = (rc, ph, w1) ->
  fw_get_property fw ph "compatible" 20 w1 = (rc', buffer, w2) ->
  let detected := rc = 0 /\ rc' = 0 /\ c_str buffer = lit "IBM,vtpm20" in
  let s' := snd (tpm_get_tpm_version fw s) in
  (detected -> grub_ieee1275_tpm_version s' = 2) /\
  (~ detected -> grub_ieee1275_tpm_version s' = grub_ieee1275_tpm_version s).
Proof.
  intros Hf Hp detected s'. subst detected s'.
  rewrite <- (grub_strcmp_zero _ buffer vtpm20_no_nul).
  unfold tpm_get_tpm_version, grub_ieee1275_finddevice,
    grub_ieee1275_get_property, bind, ret, modify.
  rewrite Hf. cbn -[grub_strcmp lit].
  destruct (rc =? 0) eqn:E1.
  - apply Z.eqb_eq in E1. cbn -[grub_strcmp lit]. rewrite Hp.
    cbn -[grub_strcmp lit].
    destruct (rc' =? 0) eqn:E2.
    + apply Z.eqb_eq in E2.
      destruct (grub_strcmp buffer (lit "IBM,vtpm20") =? 0) eqn:E3.
      * apply Z.eqb_eq in E3. cbn -[grub_strcmp lit]. tauto.
      * apply Z.eqb_neq in E3. cbn -[grub_strcmp lit]. tauto.
    + apply Z.eqb_neq in E2. cbn -[grub_strcmp lit]. tauto.
  - apply Z.eqb_neq in E1. cbn -[grub_strcmp lit]. tauto.
Qed.



(** *** What initialisation leaves behind *)

Lemma tpm_init_none (s s1 : session W) :
  grub_ieee1275_tpm_init fw s = (GRUB_ERR_NONE, s1) ->
  init_success s1 <> 0.
Proof.
  intros Hi. destruct (Z.eq_dec (init_success s) 0) as [E | E].
  - destruct (fw_open fw "/vdevice/vtpm" (grub_ieee1275_tpm_ihandle s) (world s))
      as [[rc h] w] eqn:Ho.
    destruct (Z_lt_le_dec rc 0) as [Hrc | Hrc].
    + rewrite (tpm_init_open_failed _ _ _ _ E Ho Hrc) in Hi. discriminate.
    + rewrite (tpm_init_open_ok _ _ _ _ E Ho Hrc) in Hi.
      injection Hi as <-.
      destruct (tpm_get_tpm_version_frame
                  (set_init_success 1
                     (set_ihandle h
                        (set_world w (log (ev_open "/vdevice/vtpm") s)))))
        as (_ & F & _).
      rewrite F. cbn. discriminate.
  - rewrite (tpm_init_latched _ E) in Hi. now injection Hi as <-.
Qed.

Lemma tpm_init_unknown_device (s s1 : session W) :
  grub_ieee1275_tpm_init fw s = (GRUB_ERR_UNKNOWN_DEVICE, s1) ->
  init_success s = 0 /\
  exists rc h w,
    fw_open fw "/vdevice/vtpm" (grub_ieee1275_tpm_ihandle s) (world s)
      = (rc, h, w) /\
    rc < 0 /\
    s1 = set_ihandle IEEE1275_IHANDLE_INVALID
           (set_world w (log (ev_open "/vdevice/vtpm") s)).
Proof.
  intros Hi. destruct (Z.eq_dec (init_success s) 0) as [E | E].
  - split; [assumption | ].
    destruct (fw_open fw "/vdevice/vtpm" (grub_ieee1275_tpm_ihandle s) (world s))
      as [[rc h] w] eqn:Ho.
    exists rc, h, w. split; [reflexivity | ].
    destruct (Z_lt_le_dec rc 0) as [Hrc | Hrc].
    + rewrite (tpm_init_open_failed _ _ _ _ E Ho Hrc) in Hi.
      injection Hi as <-. auto.
    + rewrite (tpm_init_open_ok _ _ _ _ E Ho Hrc) in Hi. discriminate.
  - rewrite (tpm_init_latched _ E) in Hi. discriminate.
Qed.

(** Every such call is initialisation followed by steps that change neither
    the initialisation flag, the handle nor the version, open nothing, and
    touch only the warning flag of their own kind. *)
Lemma do_call_after_init c (s s1 : session W) err :
  reaches_init c = true ->
  grub_ieee1275_tpm_init fw s = (err, s1) ->
  let r := do_call fw c s in
  (err <> GRUB_ERR_NONE -> r = (err, s1)) /\
  (c = call_init -> r = (err, s1)) /\
  (err = GRUB_ERR_NONE ->
   fst r <> GRUB_ERR_UNKNOWN_DEVICE /\
   init_success (snd r) = init_success s1 /\
   grub_ieee1275_tpm_ihandle (snd r) = grub_ieee1275_tpm_ihandle s1 /\
   grub_ieee1275_tpm_version (snd r) = grub_ieee1275_tpm_version s1 /\
   grows_without is_open s1 (snd r) /\
   (is_get_max_output_size c = false ->
    error_displayed_size (snd r) = error_displayed_size s1) /\
   (is_submit_command c = false ->
    error_displayed_submit (snd r) = error_displayed_submit s1)).
Proof.
  intros Hc Hi r. subst r. destruct c as [ | size | isz i osz o].
  - cbn [do_call]. rewrite Hi. repeat split; try discriminate; try apply grows_without_refl.
    cbn. congruence.
  - cbn [do_call]. unfold bind, ret. split; [ | split; [discriminate | ]].
    + intros He.
      now rewrite (get_max_output_size_init_failed size _ _ _ Hi He).
    + intros ->.
      destruct (fw_entry_get_maximum_cmd_size fw
                  (get_maximum_cmd_size_args (grub_ieee1275_tpm_ihandle s1))
                  (world s1)) as [[rc a] w] eqn:Hf.
      rewrite (get_max_output_size_dispatched _ _ _ _ _ _ Hi Hf). cbn zeta.
      destruct (rc =? -1); [ | destruct (gm_catch_result a =? 0);
                               [ | destruct (error_displayed_size s1 =? 0)]];
        cbn; repeat split; try discriminate; try grows.
  - assert (Hv : is_submit_command (call_submit_command isz i osz o) = true)
      by exact Hc.
    cbn [do_call]. split; [ | split; [discriminate | ]].
    + intros He.
      now rewrite (submit_command_init_failed _ _ _ _ _ _ _ Hv Hi He).
    + intros ->.
      destruct (fw_entry_pass_through_to_tpm fw
                  (pass_through_to_tpm_args (grub_ieee1275_tpm_ihandle s1)
                     isz i) (mem s1) (world s1)) as [[[rc a] m] w] eqn:Hf.
      rewrite (submit_command_dispatched _ _ _ _ _ _ _ _ _ _ Hv Hi Hf).
      cbn zeta. rewrite Hv.
      destruct (rc =? -1); [ | destruct (pt_catch_result a =? 0);
                               [ | destruct (error_displayed_submit s1 =? 0)]];
        cbn; repeat split; try discriminate; try grows.
Qed.

(** *** Sessions of several calls *)

Lemma run_cons c cs (s : session W) :
  run fw (c :: cs) s =
    let r := do_call fw c s in
    let rs := run fw cs (snd r) in
    ((fst r,
      filter is_grub_error (skipn (List.length (trace s)) (trace (snd r))))
       :: fst rs,
     snd rs).
Proof.
  cbn [run]. unfold bind, observe, ret.
  destruct (do_call fw c s) as [e s']. cbn [fst snd].
  now destruct (run fw cs s').
Qed.

Lemma results_of_cons {A : Type} p c cs (r : A) rs :
  results_of p (c :: cs) (r :: rs) =
    if p c then r :: results_of p cs rs else results_of p cs rs.
Proof. unfold results_of. cbn. now destruct (p c). Qed.

Lemma filter_cons_length (p : call -> bool) c cs :
  List.length (filter p (c :: cs)) =
    if p c then S (List.length (filter p cs)) else List.length (filter p cs).
Proof. cbn. now destruct (p c). Qed.

Lemma do_call_open_fails c (s : session W) :
  init_success s = 0 ->
  (forall path old w, fst (fst (fw_open fw path old w)) < 0) ->
  let r := do_call fw c s in
  init_success (snd r) = 0 /\
  filter is_grub_error (skipn (List.length (trace s)) (trace (snd r))) = [] /\
  if reaches_init c
  then fst r = GRUB_ERR_UNKNOWN_DEVICE /\
       count is_open (trace (snd r)) = S (count is_open (trace s))
  else fst r = GRUB_ERR_BAD_ARGUMENT /\ snd r = s.
Proof.
  intros E Hf r. subst r. destruct (reaches_init c) eqn:Hc.
  - destruct (fw_open fw "/vdevice/vtpm" (grub_ieee1275_tpm_ihandle s) (world s))
      as [[rc h] w] eqn:Ho.
    specialize (Hf "/vdevice/vtpm" (grub_ieee1275_tpm_ihandle s) (world s)).
    rewrite Ho in Hf. cbn [fst] in Hf.
    pose proof (tpm_init_open_failed _ _ _ _ E Ho Hf) as Hi.
    destruct (do_call_after_init c _ _ _ Hc Hi) as (Hr & _).
    rewrite Hr by discriminate. cbn [fst snd].
    split; [exact E | ].
    cbn [trace set_ihandle set_world log].
    rewrite skipn_length_app, count_app. cbn. repeat split. lia.
  - destruct c as [ | size | isz i osz o]; try discriminate.
    assert (Hv : is_submit_command (call_submit_command isz i osz o) = false)
      by exact Hc.
    cbn [do_call]. rewrite (submit_command_rejected _ _ _ _ _ Hv).
    cbn [fst snd]. rewrite skipn_all. auto.
Qed.

Lemma run_open_fails cs : forall s : session W,
  init_success s = 0 ->
  (forall path old w, fst (fst (fw_open fw path old w)) < 0) ->
  let r := run fw cs s in
  let n := List.length (filter reaches_init cs) in
  results_of reaches_init cs (fst r)
    = repeat (GRUB_ERR_UNKNOWN_DEVICE, []) n /\
  count is_open (trace (snd r)) = (count is_open (trace s) + n)%nat.
Proof.
  induction cs as [ | c cs IH]; intros s E Hf r n; subst r n.
  - cbn. split; [reflexivity | lia].
  - rewrite run_cons. cbn zeta. cbn [fst snd].
    destruct (do_call_open_fails c s E Hf) as (D1 & D2 & D3).
    destruct (IH _ D1 Hf) as [I1 I2].
    rewrite results_of_cons, filter_cons_length, I1, I2, D2.
    destruct (reaches_init c).
    + destruct D3 as [D3 D4]. rewrite D3, D4. split; [reflexivity | lia].
    + destruct D3 as [_ D4]. rewrite D4. split; [reflexivity | lia].
Qed.

(** *** Success is remembered *)

Lemma do_call_latched c (s : session W) :
  init_success s <> 0 ->
  let s' := snd (do_call fw c s) in
  init_success s' = init_success s /\
  grub_ieee1275_tpm_ihandle s' = grub_ieee1275_tpm_ihandle s /\
  grub_ieee1275_tpm_version s' = grub_ieee1275_tpm_version s /\
  grows_without is_open s s' /\
  (c = call_init -> do_call fw c s = (GRUB_ERR_NONE, s)).
Proof.
  intros H s'. subst s'.
  destruct (reaches_init c) eqn:Hc.
  - destruct (do_call_after_init c _ _ _ Hc (tpm_init_latched _ H))
      as (_ & Hd & Hr).
    destruct (Hr eq_refl) as (_ & R2 & R3 & R4 & R5 & _). auto 6.
  - destruct c as [ | size | isz i osz o]; try discriminate.
    assert (Hv : is_submit_command (call_submit_command isz i osz o) = false)
      by exact Hc.
    cbn [do_call]. rewrite (submit_command_rejected _ _ _ _ _ Hv). cbn.
    repeat split; try apply grows_without_refl. discriminate.
Qed.

(** *** Success is remembered in every later call *)

Lemma run_latched cs : forall s : session W,
  init_success s <> 0 ->
  let r := run fw cs s in
  results_of is_init cs (fst r)
    = repeat (GRUB_ERR_NONE, []) (List.length (filter is_init cs)) /\
  init_success (snd r) = init_success s /\
  grub_ieee1275_tpm_ihandle (snd r) = grub_ieee1275_tpm_ihandle s /\
  grub_ieee1275_tpm_version (snd r) = grub_ieee1275_tpm_version s /\
  count is_open (trace (snd r)) = count is_open (trace s).
Proof.
  induction cs as [ | c cs IH]; intros s H r; subst r.
  - cbn. auto.
  - rewrite run_cons. cbn zeta. cbn [fst snd].
    destruct (do_call_latched c s H) as (L1 & L2 & L3 & L4 & L5).
    assert (H' : init_success (snd (do_call fw c s)) <> 0) by congruence.
    destruct (IH _ H') as (I1 & I2 & I3 & I4 & I5).
    rewrite results_of_cons, filter_cons_length, I1.
    split; [ | repeat split; try congruence;
               rewrite I5; now apply grows_without_count].
    destruct c; cbn [is_init]; try reflexivity.
    rewrite (L5 eq_refl). cbn [fst snd]. rewrite skipn_all. reflexivity.
Qed.

(** *** Failure of the open is not remembered *)

(** C1 (as amended): when a call of [grub_ieee1275_tpm_init] fails with
    unknown-device, the initialisation flag is still 0 and the cached
    handle is the invalid sentinel; the failure is not latched.  The next
    call that reaches initialisation, made directly or through the size
    query or a submission, invokes the device open once more, exactly
    once.  If that open fails too the call returns unknown-device and
    leaves the session in the same not-initialised condition; if it
    succeeds the call does not return unknown-device, a direct call
    returns success, and only then is the flag set; from then on no later
    call of any sequence opens the device again, every direct call of
    initialisation returns success and the handle stays the one that open
    stored.  With firmware whose
    opens all fail, every call of a later sequence that reaches
    initialisation returns unknown-device, silently, and each of them adds
    one open to the trace. *)
Theorem tpm_init_failure_retries_open (s s1 : session W) :
  grub_ieee1275_tpm_init fw s = (GRUB_ERR_UNKNOWN_DEVICE, s1) ->
  init_success s1 = 0 /\
  grub_ieee1275_tpm_ihandle s1 = IEEE1275_IHANDLE_INVALID /\
  count is_open (trace s1) = S (count is_open (trace s)) /\
  ((forall path old w, fst (fst (fw_open fw path old w)) < 0) ->
   forall cs,
     let r := run fw cs s1 in
     let n := List.length (filter reaches_init cs) in
     results_of reaches_init cs (fst r)
       = repeat (GRUB_ERR_UNKNOWN_DEVICE, []) n /\
     count is_open (trace (snd r)) = (count is_open (trace s1) + n)%nat) /\
  forall c rc h w,
    reaches_init c = true ->
    fw_open fw "/vdevice/vtpm" (grub_ieee1275_tpm_ihandle s1) (world s1)
      = (rc, h, w) ->
    let r := do_call fw c s1 in
    count is_open (trace (snd r)) = S (count is_open (trace s1)) /\
    (rc < 0 ->
     fst r = GRUB_ERR_UNKNOWN_DEVICE /\
     init_success (snd r) = 0 /\
     grub_ieee1275_tpm_ihandle (snd r) = IEEE1275_IHANDLE_INVALID) /\
    (0 <= rc ->
     fst r <> GRUB_ERR_UNKNOWN_DEVICE /\
     init_success (snd r) = 1 /\
     grub_ieee1275_tpm_ihandle (snd r) = h /\
     (c = call_init -> fst r = GRUB_ERR_NONE) /\
     forall cs,
       let r' := run fw cs (snd r) in
       count is_open (trace (snd r')) = count is_open (trace (snd r)) /\
       results_of is_init cs (fst r')
         = repeat (GRUB_ERR_NONE, []) (List.length (filter is_init cs)) /\
       init_success (snd r') = 1 /\
       grub_ieee1275_tpm_ihandle (snd r') = h).
Proof.
  intros Hi. destruct (tpm_init_unknown_device _ _ Hi)
    as (E & rc0 & h0 & w0 & Ho & Hrc0 & ->).
  split; [exact E | ]. split; [reflexivity | ].
  split; [cbn [trace set_ihandle set_world log]; rewrite count_app; cbn; lia | ].
  split; [intros Hf cs; now apply run_open_fails | ].
  intros c rc h w Hc Ho' r.
  set (s1 := set_ihandle IEEE1275_IHANDLE_INVALID
               (set_world w0 (log (ev_open "/vdevice/vtpm") s))) in *.
  assert (E1 : init_success s1 = 0) by exact E.
  destruct (Z_lt_le_dec rc 0) as [Hrc | Hrc].
  - pose proof (tpm_init_open_failed _ _ _ _ E1 Ho' Hrc) as Hi1.
    destruct (do_call_after_init c _ _ _ Hc Hi1) as (Hr & _).
    fold r in Hr. rewrite Hr by discriminate. cbn [fst snd].
    split; [cbn [trace set_ihandle set_world log]; rewrite !count_app; cbn; lia | ].
    split; [intros _; repeat split; exact E | intros; lia].
  - pose proof (tpm_init_open_ok _ _ _ _ E1 Ho' Hrc) as Hi1.
    destruct (do_call_after_init c _ _ _ Hc Hi1) as (_ & Hd & Hr).
    fold r in Hr, Hd. destruct (Hr eq_refl) as (R1 & R2 & R3 & _ & R5 & _).
    match type of R5 with
    | grows_without _ (snd (tpm_get_tpm_version fw ?s0)) _ =>
        destruct (tpm_get_tpm_version_frame s0) as (F1 & F2 & _ & _ & _ & F6 & _)
    end.
    split.
    + rewrite (grows_without_count _ _ _ R5), (grows_without_count _ _ _ F6).
      cbn [trace set_ihandle set_world log set_init_success].
      rewrite !count_app. cbn. lia.
    + split; [intros; lia | intros _].
      assert (L1 : init_success (snd r) = 1) by now rewrite R2, F2.
      assert (L2 : grub_ieee1275_tpm_ihandle (snd r) = h)
        by now rewrite R3, F1.
      split; [exact R1 | ]. split; [exact L1 | ]. split; [exact L2 | ].
      split; [intros ->; now rewrite (Hd eq_refl) | ].
      intros cs r'.
      assert (L3 : init_success (snd r) <> 0) by (rewrite L1; discriminate).
      destruct (run_latched cs (snd r) L3) as (T1 & T2 & T3 & _ & T5).
      fold r' in T1, T2, T3, T5.
      split; [exact T5 | ]. split; [exact T1 | ].
      split; [now rewrite T2 | now rewrite T3].
Qed.

(** *** Initialisation is idempotent after success *)

(** C6: once a call of [grub_ieee1275_tpm_init] has returned success, a
    repeated call returns success and leaves the session exactly as it is;
    and in every later sequence of calls of the three operations, each
    direct call of initialisation returns success without a warning, the
    cached handle and the interface version stay what they were, and the
    number of device opens recorded in the trace does not grow. *)
Theorem tpm_init_idempotent_after_success (s s1 : session W) :
  grub_ieee1275_tpm_init fw s = (GRUB_ERR_NONE, s1) ->
  grub_ieee1275_tpm_init fw s1 = (GRUB_ERR_NONE, s1) /\
  forall cs,
    let r := run fw cs s1 in
    results_of is_init cs (fst r)
      = repeat (GRUB_ERR_NONE, []) (List.length (filter is_init cs)) /\
    grub_ieee1275_tpm_ihandle (snd r) = grub_ieee1275_tpm_ihandle s1 /\
    grub_ieee1275_tpm_version (snd r) = grub_ieee1275_tpm_version s1 /\
    count is_open (trace (snd r)) = count is_open (trace s1).
Proof.
  intros Hi. pose proof (tpm_init_none _ _ Hi) as H.
  split; [now apply tpm_init_latched | ].
  intros cs r. destruct (run_latched cs s1 H) as (R1 & _ & R3 & R4 & R5).
  auto.
Qed.

(** *** One warning per operation kind *)











(** *** What one call appends to the trace *)

Ltac bools :=
  repeat match goal with
    | H : (_ =? _) = true |- _ => apply Z.eqb_eq in H
    | H : (_ =? _) = false |- _ => apply Z.eqb_neq in H
    | H : (_ <? _) = true |- _ => apply Z.ltb_lt in H
    | H : (_ <? _) = false |- _ => apply Z.ltb_ge in H
    end.

Ltac trace_norm :=
  unfold appended;
  cbn [trace fst snd log set_ihandle set_version set_init_success
         set_error_displayed_size set_error_displayed_submit set_mem
         set_world];
  rewrite <- ?app_assoc;
  rewrite ?skipn_length_app, ?skipn_all.

Ltac by_cases c :=
  destruct c as [ | ? | ? ? ? ?]; unfold do_call, reaches_init;
  tpm_cases; trace_norm.

(** The trace only grows: what a call leaves is what it found followed by
    what it appended. *)
Lemma do_call_appends c (s : session W) :
  trace (snd (do_call fw c s)) = trace s ++ appended s (snd (do_call fw c s)).
Proof.
  by_cases c; rewrite ?app_nil_r; try reflexivity;
    cbn [trace fst snd log set_ihandle set_version set_init_success
           set_error_displayed_size set_error_displayed_submit set_mem
           set_world];
    rewrite <- ?app_assoc; rewrite ?skipn_length_app, ?skipn_all, ?app_nil_r;
    reflexivity.
Qed.

(** X4: a call opens the device exactly when it reaches initialisation in
    a session whose initialisation flag is 0, and then it opens once. *)
Theorem call_opens_iff_uninitialised c (s : session W) :
  count is_open (appended s (snd (do_call fw c s))) =
    if reaches_init c && (init_success s =? 0) then 1%nat else 0%nat.
Proof. by_cases c; reflexivity. Qed.

(** X5: a call that reaches initialisation returns unknown-device exactly
    when it leaves the initialisation flag at 0; whatever else goes wrong
    in the call, a successful open stays recorded. *)
Theorem unknown_device_iff_uninitialised c (s : session W) :
  reaches_init c = true ->
  let r := do_call fw c s in
  fst r = GRUB_ERR_UNKNOWN_DEVICE <-> init_success (snd r) = 0.
Proof.
  intros Hc r. subst r. revert Hc.
  by_cases c; intros Hc; bools; cbn;
    split; intros; try discriminate; try lia; try reflexivity.
Qed.

(** X6: a call surfaces a warning exactly when it returns bad-device, and
    then it is the one warning of its kind; every other return code, the
    unknown-device, invalid-command and bad-argument errors included, is
    silent. *)
Theorem warning_iff_bad_device c (s : session W) :
  let r := do_call fw c s in
  filter is_grub_error (appended s (snd r)) =
    if grub_err_eqb (fst r) GRUB_ERR_BAD_DEVICE then warning_of c else [].
Proof. intros r. subst r. by_cases c; reflexivity. Qed.

(** X12: the firmware entry point is dispatched once by a size query or a
    submission that returns success, invalid-command or bad-device, and
    not at all by one that returns unknown-device or bad-argument, nor by
    a direct initialisation; a copy to the output buffer is made once by a
    submission that returns success and by no other call. *)
Theorem dispatch_count_by_return_code c (s : session W) :
  let r := do_call fw c s in
  count is_call_entry (appended s (snd r)) =
    (if is_init c then 0%nat
     else match fst r with
          | GRUB_ERR_UNKNOWN_DEVICE | GRUB_ERR_BAD_ARGUMENT => 0%nat
          | _ => 1%nat
          end) /\
  count is_memcpy (appended s (snd r)) =
    (if is_submit_command c && grub_err_eqb (fst r) GRUB_ERR_NONE
     then 1%nat else 0%nat).
Proof. intros r. subst r. by_cases c; split; reflexivity. Qed.

(** X13: bad-argument is returned by exactly the calls that do not reach
    initialisation, so never by the size query and never by a submission
    with non-zero sizes and non-null buffers; a direct initialisation
    returns success or unknown-device and nothing else. *)
Theorem return_codes c (s : session W) :
  let r := do_call fw c s in
  (fst r = GRUB_ERR_BAD_ARGUMENT <-> reaches_init c = false) /\
  (c = call_init ->
   fst r = GRUB_ERR_NONE \/ fst r = GRUB_ERR_UNKNOWN_DEVICE).
Proof.
  intros r. subst r.
  by_cases c; cbn; (split; [split | ]); intros; try discriminate; auto.
Qed.

(** X14: a call changes the interface version only if it is the call that
    opens the device, and then only to 2. *)
Theorem version_changes_only_on_open c (s : session W) :
  let r := do_call fw c s in
  grub_ieee1275_tpm_version (snd r) = grub_ieee1275_tpm_version s \/
  (init_success s = 0 /\
   init_success (snd r) = 1 /\
   grub_ieee1275_tpm_version (snd r) = 2).
Proof.
  intros r. subst r. by_cases c; bools; cbn; auto.
Qed.

(** *** The invariant of sessions *)

Lemma count_snoc (p : event -> bool) (t : list event) (e : event) :
  count p (t ++ [e]) = (count p t + if p e then 1 else 0)%nat.
Proof. rewrite count_app. unfold count at 2. cbn. now destruct (p e). Qed.

Ltac inv_cases :=
  tpm_unfold;
  cbn -[count msg_get_maximum_cmd_size msg_pass_through_to_tpm] in *;
  repeat (fw_step;
          cbn -[count msg_get_maximum_cmd_size msg_pass_through_to_tpm] in * ).

Ltac hide_counts :=
  repeat match goal with
    | |- context [count ?p (trace ?s)] =>
        let n := fresh "n" in set (n := count p (trace s)) in *
    end.

Ltac inv_solve :=
  bools; rewrite ?count_snoc; hide_counts; cbn;
  try (exfalso; lia);
  repeat split; try intros ?; try lia.

Lemma session_inv_boot (m : memory) (w : W) : session_inv (boot m w).
Proof.
  unfold session_inv, boot. cbn. repeat split; auto; lia.
Qed.

Lemma session_inv_init (s : session W) :
  session_inv s -> session_inv (snd (grub_ieee1275_tpm_init fw s)).
Proof.
  unfold session_inv.
  intros (I1 & I2 & I3 & I4 & I5 & I6 & I7 & I8 & I9).
  destruct (Z.eq_dec (init_success s) 0) as [E | E];
    [specialize (I8 E); clear I9;
     destruct I8 as (J1 & J2 & J3 & J4 & J5 & J6 & J7)
    | specialize (I9 E); clear I8; destruct I9 as (J1 & J2 & J3)];
    inv_cases; inv_solve.
Qed.

Lemma session_inv_dispatched_size (s1 : session W) rc a w :
  session_inv s1 ->
  init_success s1 <> 0 ->
  session_inv
    (let s2 := set_world w (log (ev_call_entry "get-maximum-cmd-size") s1) in
     if rc =? -1 then s2
     else if negb (gm_catch_result a =? 0) then
       if error_displayed_size s1 =? 0 then
         log (ev_grub_error GRUB_ERR_BAD_DEVICE msg_get_maximum_cmd_size)
           (set_error_displayed_size (error_displayed_size s1 + 1) s2)
       else s2
     else s2).
Proof.
  unfold session_inv.
  intros (I1 & I2 & I3 & I4 & I5 & I6 & I7 & _ & I9) E.
  specialize (I9 E). destruct I9 as (J1 & J2 & J3).
  cbn zeta.
  destruct (rc =? -1);
    [ | destruct (gm_catch_result a =? 0);
        [ | destruct (error_displayed_size s1 =? 0) eqn:F]];
    cbn -[count msg_get_maximum_cmd_size msg_pass_through_to_tpm]; inv_solve.
Qed.

Lemma session_inv_dispatched_submit (s1 : session W) rc a m w output input :
  session_inv s1 ->
  init_success s1 <> 0 ->
  session_inv
    (let s2 :=
       set_mem m (set_world w (log (ev_call_entry "pass-through-to-tpm") s1)) in
     if rc =? -1 then s2
     else if negb (pt_catch_result a =? 0) then
       if error_displayed_submit s1 =? 0 then
         log (ev_grub_error GRUB_ERR_BAD_DEVICE msg_pass_through_to_tpm)
           (set_error_displayed_submit (error_displayed_submit s1 + 1) s2)
       else s2
     else
       set_mem (mem_copy output input (pt_resp_size a) m)
         (log (ev_memcpy output input (pt_resp_size a)) s2)).
Proof.
  unfold session_inv.
  intros (I1 & I2 & I3 & I4 & I5 & I6 & I7 & _ & I9) E.
  specialize (I9 E). destruct I9 as (J1 & J2 & J3).
  cbn zeta.
  destruct (rc =? -1);
    [ | destruct (pt_catch_result a =? 0);
        [ | destruct (error_displayed_submit s1 =? 0) eqn:F]];
    cbn -[count msg_get_maximum_cmd_size msg_pass_through_to_tpm]; inv_solve.
Qed.

Lemma session_inv_do_call c (s : session W) :
  session_inv s -> session_inv (snd (do_call fw c s)).
Proof.
  intros I. pose proof (session_inv_init s I) as I1.
  destruct (grub_ieee1275_tpm_init fw s) as [err s1] eqn:Hi.
  cbn [snd] in I1.
  destruct c as [ | size | isz i osz o]; cbn [do_call].
  - now rewrite Hi.
  - unfold bind, ret.
    destruct (grub_err_eqb err GRUB_ERR_NONE) eqn:He.
    + destruct err; try discriminate.
      destruct (fw_entry_get_maximum_cmd_size fw
                  (get_maximum_cmd_size_args (grub_ieee1275_tpm_ihandle s1))
                  (world s1)) as [[rc a] w] eqn:Hf.
      rewrite (get_max_output_size_dispatched _ _ _ _ _ _ Hi Hf).
      pose proof (session_inv_dispatched_size s1 rc a w I1
                    (tpm_init_none _ _ Hi)) as I2.
      cbn zeta in *.
      destruct (rc =? -1);
        [ | destruct (negb (gm_catch_result a =? 0));
            [destruct (error_displayed_size s1 =? 0) | ]]; exact I2.
    + rewrite (get_max_output_size_init_failed size _ _ _ Hi)
        by (intros ->; discriminate).
      exact I1.
  - destruct (is_submit_command (call_submit_command isz i osz o)) eqn:Hv.
    2:{ now rewrite (submit_command_rejected _ _ _ _ _ Hv). }
    destruct (grub_err_eqb err GRUB_ERR_NONE) eqn:He.
    + destruct err; try discriminate.
      destruct (fw_entry_pass_through_to_tpm fw
                  (pass_through_to_tpm_args (grub_ieee1275_tpm_ihandle s1)
                     isz i) (mem s1) (world s1)) as [[[rc a] m] w] eqn:Hf.
      rewrite (submit_command_dispatched _ _ _ _ _ _ _ _ _ _ Hv Hi Hf).
      pose proof (session_inv_dispatched_submit s1 rc a m w o i I1
                    (tpm_init_none _ _ Hi)) as I2.
      cbn zeta in *.
      destruct (rc =? -1);
        [ | destruct (negb (pt_catch_result a =? 0));
            [destruct (error_displayed_submit s1 =? 0) | ]]; exact I2.
    + rewrite (submit_command_init_failed _ _ _ _ _ _ _ Hv Hi)
        by (intros ->; discriminate).
      exact I1.
Qed.

Lemma session_inv_run cs : forall s : session W,
  session_inv s -> session_inv (snd (run fw cs s)).
Proof.
  induction cs as [ | c cs IH]; intros s I; [exact I | ].
  rewrite run_cons. cbn zeta. cbn [snd].
  apply IH. now apply session_inv_do_call.
Qed.

(** X1: in every session reached from boot by calls of the three
    operations, whatever the firmware does, the initialisation flag and
    the two warning flags are 0 or 1, so the increments of the warning
    flags cannot overflow, and the interface version is 0 or 2; while the
    flag is 0 the cached handle is the invalid sentinel and the version
    is 0. *)
Theorem reachable_session_ranges cs (m : memory) (w : W) :
  let s := snd (run fw cs (boot m w)) in
  (init_success s = 0 \/ init_success s = 1) /\
  (grub_ieee1275_tpm_version s = 0 \/ grub_ieee1275_tpm_version s = 2) /\
  (error_displayed_size s = 0 \/ error_displayed_size s = 1) /\
  (error_displayed_submit s = 0 \/ error_displayed_submit s = 1) /\
  (init_success s = 0 ->
   grub_ieee1275_tpm_ihandle s = IEEE1275_IHANDLE_INVALID /\
   grub_ieee1275_tpm_version s = 0).
Proof.
  intros s.
  destruct (session_inv_run cs _ (session_inv_boot m w))
    as (I1 & I2 & I3 & I4 & _ & _ & _ & I8 & _).
  fold s in I1, I2, I3, I4, I8.
  repeat split; try assumption; now apply I8.
Qed.

(** X2: in every session reached from boot, whatever the firmware does,
    each of the two warnings has been surfaced at most once, no other
    [grub_error] has been raised, and each warning flag is the number of
    times its warning was surfaced. *)
Theorem at_most_one_warning_per_kind cs (m : memory) (w : W) :
  let s := snd (run fw cs (boot m w)) in
  let n_size := count (is_warning msg_get_maximum_cmd_size) (trace s) in
  let n_submit := count (is_warning msg_pass_through_to_tpm) (trace s) in
  (n_size <= 1)%nat /\
  (n_submit <= 1)%nat /\
  count is_grub_error (trace s) = (n_size + n_submit)%nat /\
  error_displayed_size s = Z.of_nat n_size /\
  error_displayed_submit s = Z.of_nat n_submit.
Proof.
  intros s n_size n_submit.
  destruct (session_inv_run cs _ (session_inv_boot m w))
    as (_ & _ & I3 & I4 & I5 & I6 & I7 & _).
  fold s in I3, I4, I5, I6, I7. fold n_size in I5, I7. fold n_submit in I6, I7.
  repeat split; try assumption; lia.
Qed.

(** X3: in every session reached from boot, as long as no open has
    succeeded nothing but opens has been asked of the firmware: no node
    lookup, no property read, no dispatch, no warning and no copy; and
    once an open has succeeded the node has been looked up exactly once
    and its property read at most once, however many calls followed. *)
Theorem nothing_before_open_detection_once cs (m : memory) (w : W) :
  let s := snd (run fw cs (boot m w)) in
  (init_success s = 0 ->
   count is_finddevice (trace s) = 0%nat /\
   count is_get_property (trace s) = 0%nat /\
   count is_call_entry (trace s) = 0%nat /\
   count is_grub_error (trace s) = 0%nat /\
   count is_memcpy (trace s) = 0%nat) /\
  (init_success s <> 0 ->
   (1 <= count is_open (trace s))%nat /\
   count is_finddevice (trace s) = 1%nat /\
   (count is_get_property (trace s) <= 1)%nat).
Proof.
  intros s.
  destruct (session_inv_run cs _ (session_inv_boot m w))
    as (_ & _ & _ & _ & _ & _ & _ & I8 & I9).
  fold s in I8, I9.
  split; [intros E; now destruct (I8 E) as (_ & _ & H) | exact I9].
Qed.

(** *** The first successful open *)

(** X15: in a session whose initialisation flag is 0, when the open
    returns a non-negative code, initialisation returns success, sets the
    flag to 1 and caches the handle exactly as the open stored it, the
    value 0 of the invalid sentinel included: only the return code of the
    open is examined.  It then looks the node up once, and leaves both
    warning flags and caller memory alone. *)
Theorem tpm_init_caches_opened_handle (s : session W) rc h w :
  init_success s = 0 ->
  fw_open fw "/vdevice/vtpm" (grub_ieee1275_tpm_ihandle s) (world s)
    = (rc, h, w) ->
  0 <= rc ->
  let r := grub_ieee1275_tpm_init fw s in
  fst r = GRUB_ERR_NONE /\
  init_success (snd r) = 1 /\
  grub_ieee1275_tpm_ihandle (snd r) = h /\
  error_displayed_size (snd r) = error_displayed_size s /\
  error_displayed_submit (snd r) = error_displayed_submit s /\
  mem (snd r) = mem s /\
  count is_open (appended s (snd r)) = 1%nat /\
  count is_finddevice (appended s (snd r)) = 1%nat.
Proof.
  intros E Ho Hrc r. subst r.
  apply Z.ltb_ge in Hrc.
  tpm_unfold. cbn. rewrite E. cbn. rewrite Ho, Hrc. cbn.
  repeat (fw_step; cbn in * ); trace_norm; repeat split.
Qed.

(** *** Failure of the open, seen from the two operations *)

(** X7: in a session whose initialisation flag is 0, when the open fails,
    every call that reaches initialisation returns unknown-device and
    leaves the session it would have left had it stopped after the open:
    the handle invalid, the firmware's state as the open left it, one open
    appended to the trace, nothing dispatched, caller memory and the
    caller's size variable untouched. *)
Theorem open_failure_propagates (s : session W) rc h w :
  init_success s = 0 ->
  fw_open fw "/vdevice/vtpm" (grub_ieee1275_tpm_ihandle s) (world s)
    = (rc, h, w) ->
  rc < 0 ->
  let s1 := set_ihandle IEEE1275_IHANDLE_INVALID
              (set_world w (log (ev_open "/vdevice/vtpm") s)) in
  (forall c, reaches_init c = true ->
             do_call fw c s = (GRUB_ERR_UNKNOWN_DEVICE, s1)) /\
  (forall size,
      grub_tcg2_get_max_output_size fw size s
      = ((GRUB_ERR_UNKNOWN_DEVICE, size), s1)) /\
  mem s1 = mem s /\
  trace s1 = trace s ++ [ev_open "/vdevice/vtpm"].
Proof.
  intros E Ho Hrc s1.
  pose proof (tpm_init_open_failed _ _ _ _ E Ho Hrc) as Hi. fold s1 in Hi.
  split; [ | split; [ | split; reflexivity]].
  - intros c Hc. destruct (do_call_after_init c _ _ _ Hc Hi) as (Hr & _).
    apply Hr. discriminate.
  - intros size. apply (get_max_output_size_init_failed size _ _ _ Hi).
    discriminate.
Qed.

(** *** The copy of the response *)

Lemma mem_copy_same a n m x : mem_copy a a n m x = m x.
Proof.
  unfold mem_copy. destruct ((a <=? x) && (x <? a + n)); [f_equal; lia | easy].
Qed.

(** X8: the output size is compared with zero and not used otherwise: two
    submissions that differ only in a non-zero output size do the same.
    In particular the response length is not checked against it: a
    successful submission stores byte [i] of the response at [output + i]
    also for [i] at or beyond the output size. *)
Theorem submit_command_ignores_output_size
  input_size input output_size output (s : session W) :
  output_size <> 0 ->
  (forall output_size', output_size' <> 0 ->
     grub_tcg2_submit_command fw input_size input output_size' output s
     = grub_tcg2_submit_command fw input_size input output_size output s) /\
  (forall s1 rc a m w,
     input_size <> 0 -> input <> NULL -> output <> NULL ->
     grub_ieee1275_tpm_init fw s = (GRUB_ERR_NONE, s1) ->
     fw_entry_pass_through_to_tpm fw
       (pass_through_to_tpm_args (grub_ieee1275_tpm_ihandle s1)
          input_size input)
       (mem s1) (world s1) = (rc, a, m, w) ->
     rc <> -1 ->
     pt_catch_result a = 0 ->
     let r :=
       grub_tcg2_submit_command fw input_size input output_size output s in
     forall i, 0 <= i -> output_size <= i < pt_resp_size a ->
               mem (snd r) (output + i) = m (input + i)).
Proof.
  intros H3. split.
  - intros output_size' H3'. unfold grub_tcg2_submit_command.
    apply Z.eqb_neq in H3, H3'. now rewrite H3, H3'.
  - intros s1 rc a m w H1 H2 H4 Hi Hf Hrc Hc r i Hi0 Hr. subst r.
    rewrite (submit_command_dispatched _ _ _ _ _ _ _ _ _ _
               (is_submit_command_true _ _ _ _ H1 H2 H3 H4) Hi Hf).
    cbn zeta. apply Z.eqb_neq in Hrc. rewrite Hrc, Hc. cbn.
    apply mem_copy_inside. lia.
Qed.

(** X9: when the caller passes the same buffer as input and as output, a
    successful submission leaves caller memory exactly as the firmware
    left it: the copy of the response onto itself changes no byte. *)
Theorem submit_command_in_place
  input_size buffer output_size (s s1 : session W) rc a m w :
  input_size <> 0 -> buffer <> NULL -> output_size <> 0 ->
  grub_ieee1275_tpm_init fw s = (GRUB_ERR_NONE, s1) ->
  fw_entry_pass_through_to_tpm fw
    (pass_through_to_tpm_args (grub_ieee1275_tpm_ihandle s1) input_size buffer)
    (mem s1) (world s1) = (rc, a, m, w) ->
  rc <> -1 ->
  pt_catch_result a = 0 ->
  let r :=
    grub_tcg2_submit_command fw input_size buffer output_size buffer s in
  fst r = GRUB_ERR_NONE /\ forall x, mem (snd r) x = m x.
Proof.
  intros H1 H2 H3 Hi Hf Hrc Hc r. subst r.
  rewrite (submit_command_dispatched _ _ _ _ _ _ _ _ _ _
             (is_submit_command_true _ _ _ _ H1 H2 H3 H2) Hi Hf).
  cbn zeta. apply Z.eqb_neq in Hrc. rewrite Hrc, Hc. cbn.
  split; [reflexivity | intros x; apply mem_copy_same].
Qed.

(** *** Version detection *)

(** X10: version detection changes nothing of the session but the
    version, the firmware's state and the trace.  It looks the node up
    once; it reads the property, once, from the node the lookup returned
    and with a length of 20, exactly when the lookup returned 0, and not
    at all otherwise. *)
Theorem tpm_get_tpm_version_effects (s : session W) rc ph w1 :
  fw_finddevice fw "/vdevice/vtpm" (world s) = (rc, ph, w1) ->
  let s' := snd (tpm_get_tpm_version fw s) in
  grub_ieee1275_tpm_ihandle s' = grub_ieee1275_tpm_ihandle s /\
  init_success s' = init_success s /\
  error_displayed_size s' = error_displayed_size s /\
  error_displayed_submit s' = error_displayed_submit s /\
  mem s' = mem s /\
  appended s s' =
    if rc =? 0
    then [ev_finddevice "/vdevice/vtpm"; ev_get_property ph "compatible" 20]
    else [ev_finddevice "/vdevice/vtpm"].
Proof.
  intros Hf s'. subst s'.
  unfold tpm_get_tpm_version, grub_ieee1275_finddevice,
    grub_ieee1275_get_property, bind, ret, modify.
  rewrite Hf. cbn -[grub_strcmp lit].
  destruct (rc =? 0); cbn -[grub_strcmp lit].
  - destruct (fw_get_property fw ph "compatible" 20 w1) as [[rc' b] w2].
    cbn -[grub_strcmp lit].
    destruct (rc' =? 0); [destruct (grub_strcmp b _ =? 0) | ];
      cbn; trace_norm; repeat split.
  - trace_norm. repeat split.
Qed.

Lemma c_str_prefix (l : list byte) : forall b : list byte,
  ~ In x00 l ->
  (List.length l < List.length b)%nat ->
  c_str b = l <-> firstn (S (List.length l)) b = l ++ [x00].
Proof.
  induction l as [ | c l IH]; intros b Hl Hb.
  - destruct b as [ | d b]; [cbn in Hb; lia | ].
    cbn -[Byte.eqb]. destruct (Byte.eqb d x00) eqn:E.
    + apply byte_eqb_eq in E. subst d. tauto.
    + apply byte_eqb_neq in E.
      split; [discriminate | intros H; injection H; tauto].
  - assert (Hc : c <> x00) by (intros ->; apply Hl; now left).
    assert (Hl' : ~ In x00 l) by (intros H; apply Hl; now right).
    destruct b as [ | d b]; [cbn in Hb; lia | ].
    assert (Hb' : (List.length l < List.length b)%nat) by (cbn in Hb; lia).
    specialize (IH b Hl' Hb').
    change (firstn (S (List.length (c :: l))) (d :: b))
      with (d :: firstn (S (List.length l)) b).
    cbn -[Byte.eqb firstn]. destruct (Byte.eqb d x00) eqn:E.
    + apply byte_eqb_eq in E. subst d.
      split; [discriminate | intros H; injection H; intros; congruence].
    + split; intros H; injection H as H1 H2; subst d; f_equal; tauto.
Qed.

(** X11: version detection looks at the first 11 bytes of the 20-byte
    buffer and at nothing behind them: when the node resolves and the
    property read succeeds, the version is set to 2 if those bytes are
    "IBM,vtpm20" followed by NUL, and is left as it was if they are not;
    so a value stored without its terminator is recognised only if the
    byte behind it happens to be NUL. *)
Theorem version_detection_reads_eleven_bytes
  (s : session W) ph w1 buffer w2 :
  fw_finddevice fw "/vdevice/vtpm" (world s) = (0, ph, w1) ->
  fw_get_property fw ph "compatible" 20 w1 = (0, buffer, w2) ->
  List.length buffer = 20%nat ->
  let s' := snd (tpm_get_tpm_version fw s) in
  (firstn 11 buffer = lit "IBM,vtpm20" ++ [x00] ->
   grub_ieee1275_tpm_version s' = 2) /\
  (firstn 11 buffer <> lit "IBM,vtpm20" ++ [x00] ->
   grub_ieee1275_tpm_version s' = grub_ieee1275_tpm_version s).
Proof.
  intros Hf Hp Hlen s'.
  destruct (tpm_get_tpm_version_spec s 0 ph w1 0 buffer w2 Hf Hp)
    as [Hyes Hno].
  fold s' in Hyes, Hno.
  assert (Hc : c_str buffer = lit "IBM,vtpm20" <->
               firstn 11 buffer = lit "IBM,vtpm20" ++ [x00]).
  { apply (c_str_prefix (lit "IBM,vtpm20") buffer vtpm20_no_nul).
    rewrite Hlen. cbn. lia. }
  split; intros H.
  - apply Hyes. repeat split. now apply Hc.
  - apply Hno. intros (_ & _ & H'). apply H. now apply Hc.
Qed.
End Properties.

(** * The theorems at the test doubles *)

(** C1 as the spec words it fails: with a device whose first open fails and
    whose second open succeeds, the first call of initialisation returns
    unknown-device, and the second call neither returns unknown-device nor
    refrains from opening: it opens again and returns success. *)
Lemma tpm_init_failure_not_latched :
  let fw := double late_device in
  let r1 := grub_ieee1275_tpm_init fw (boot ramp O) in
  let r2 := grub_ieee1275_tpm_init fw (snd r1) in
  fst r1 = GRUB_ERR_UNKNOWN_DEVICE /\
  fst r2 = GRUB_ERR_NONE /\
  count is_open (trace (snd r1)) = 1%nat /\
  count is_open (trace (snd r2)) = 2%nat /\
  ~ (fst r2 = GRUB_ERR_UNKNOWN_DEVICE /\
     count is_open (trace (snd r2)) = count is_open (trace (snd r1))).
Proof.
  cbv zeta. repeat split; try reflexivity.
  intros [H _]. vm_compute in H. discriminate H.
Qed.

Lemma tpm_init_failure_retries_open_witness :
  let fw := double late_device in
  let s := boot ramp O in
  let s1 := snd (grub_ieee1275_tpm_init fw s) in
  let r := do_call fw call_init s1 in
  let cs := [call_init; call_get_max_output_size 0;
             call_submit_command 8 16 8 32; call_init] in
  let r' := run fw cs (snd r) in
  grub_ieee1275_tpm_init fw s = (GRUB_ERR_UNKNOWN_DEVICE, s1) /\
  init_success s1 = 0 /\
  count is_open (trace (snd r)) = S (count is_open (trace s1)) /\
  fst r = GRUB_ERR_NONE /\
  grub_ieee1275_tpm_ihandle (snd r) = 7 /\
  count is_open (trace (snd r')) = count is_open (trace (snd r)) /\
  results_of is_init cs (fst r') = [(GRUB_ERR_NONE, []); (GRUB_ERR_NONE, [])].
Proof.
  intros fw s s1 r cs r'.
  assert (Hi : grub_ieee1275_tpm_init fw s = (GRUB_ERR_UNKNOWN_DEVICE, s1))
    by reflexivity.
  destruct (tpm_init_failure_retries_open fw s s1 Hi) as (H1 & _ & _ & _ & H4).
  destruct (H4 call_init 0 7 2%nat eq_refl eq_refl) as (C1 & _ & C3).
  destruct (C3 ltac:(lia)) as (_ & _ & C5 & C6 & C7).
  destruct (C7 cs) as (L1 & L2 & _).
  split; [exact Hi | ]. split; [exact H1 | ]. split; [exact C1 | ].
  split; [exact (C6 eq_refl) | ]. split; [exact C5 | ].
  split; [exact L1 | exact L2].
Defined.


Lemma submit_command_copies_response_witness :
  let fw := double vtpm20 in
  let s := boot ramp O in
  let s1 := snd (grub_ieee1275_tpm_init fw s) in
  let r := grub_tcg2_submit_command fw 8 16 8 32 s in
  grub_ieee1275_tpm_init fw s = (GRUB_ERR_NONE, s1) /\
  fst r = GRUB_ERR_NONE /\
  mem (snd r) (32 + 1) = store_bytes 16 (cfg_response vtpm20) ramp (16 + 1) /\
  mem (snd r) 36 = mem s 36.
Proof.
  intros fw s s1 r.
  assert (Hi : grub_ieee1275_tpm_init fw s = (GRUB_ERR_NONE, s1))
    by reflexivity.
  destruct (submit_command_copies_response fw 8 16 8 32 s s1 0
              {| pt_common := INIT_IEEE1275_COMMON "call-method" 4 2;
                 pt_method := "pass-through-to-tpm";
                 pt_ihandle := 7;
                 pt_buf_size := 8;
                 pt_buf_addr := 16;
                 pt_catch_result := 0;
                 pt_resp_size := 4 |}
              (store_bytes 16 (cfg_response vtpm20) ramp) 1%nat
              ltac:(discriminate) ltac:(discriminate) ltac:(discriminate)
              ltac:(discriminate) Hi eq_refl ltac:(discriminate) eq_refl)
    as (C1 & _ & _ & C4 & _ & C6 & _).
  split; [exact Hi | ]. split; [exact C1 | ].
  split; [apply C4; cbn; lia | apply C6; [cbn; lia | reflexivity]].
Defined.

Lemma submit_command_bad_argument_no_dispatch_witness :
  let fw := double vtpm20 in
  let r := grub_tcg2_submit_command fw 8 NULL 8 32 (boot ramp O) in
  (8 = 0 \/ NULL = NULL \/ 8 = 0 \/ 32 = NULL) /\
  fst r = GRUB_ERR_BAD_ARGUMENT /\
  count is_call_entry (trace (snd r)) = 0%nat.
Proof.
  intros fw r.
  assert (H : 8 = 0 \/ NULL = NULL \/ 8 = 0 \/ 32 = NULL)
    by (right; left; reflexivity).
  destruct (submit_command_bad_argument_no_dispatch fw 8 NULL 8 32
              (boot ramp O) H) as (C1 & _ & _ & C4).
  split; [exact H | ]. split; [exact C1 | exact (C4 eq_refl)].
Defined.


Lemma tpm_init_idempotent_after_success_witness :
  let fw := double vtpm20 in
  let s := boot ramp O in
  let s1 := snd (grub_ieee1275_tpm_init fw s) in
  let cs := [call_init; call_get_max_output_size 0; call_init;
             call_submit_command 8 16 8 32; call_init] in
  let r := run fw cs s1 in
  grub_ieee1275_tpm_init fw s = (GRUB_ERR_NONE, s1) /\
  grub_ieee1275_tpm_init fw s1 = (GRUB_ERR_NONE, s1) /\
  results_of is_init cs (fst r) =
    [(GRUB_ERR_NONE, []); (GRUB_ERR_NONE, []); (GRUB_ERR_NONE, [])] /\
  grub_ieee1275_tpm_ihandle (snd r) = 7 /\
  count is_open (trace (snd r)) = 1%nat.
Proof.
  intros fw s s1 cs r.
  assert (Hi : grub_ieee1275_tpm_init fw s = (GRUB_ERR_NONE, s1))
    by reflexivity.
  destruct (tpm_init_idempotent_after_success fw s s1 Hi) as [C1 C2].
  destruct (C2 cs) as (R1 & R2 & _ & R4).
  split; [exact Hi | ]. split; [exact C1 | ]. split; [exact R1 | ].
  split; [exact R2 | exact R4].
Defined.

Lemma dispatch_failure_invalid_command_witness :
  let fw := double dead_entry in
  let s := boot ramp O in
  let s1 := snd (grub_ieee1275_tpm_init fw s) in
  grub_ieee1275_tpm_init fw s = (GRUB_ERR_NONE, s1) /\
  fst (grub_tcg2_get_max_output_size fw 77 s)
    = (GRUB_ERR_INVALID_COMMAND, 77) /\
  fst (grub_tcg2_submit_command fw 8 16 8 32 s) = GRUB_ERR_INVALID_COMMAND.
Proof.
  intros fw s s1.
  assert (Hi : grub_ieee1275_tpm_init fw s = (GRUB_ERR_NONE, s1))
    by reflexivity.
  destruct (dispatch_failure_invalid_command fw) as [H1 H2].
  split; [exact Hi | ]. split.
  - rewrite (H1 77 s s1
               {| gm_common := INIT_IEEE1275_COMMON "call-method" 2 2;
                  gm_method := "get-maximum-cmd-size";
                  gm_ihandle := 7;
                  gm_catch_result := 0;
                  gm_size := 4096 |} 1%nat Hi eq_refl).
    reflexivity.
  - rewrite (H2 8 16 8 32 s s1
               {| pt_common := INIT_IEEE1275_COMMON "call-method" 4 2;
                  pt_method := "pass-through-to-tpm";
                  pt_ihandle := 7;
                  pt_buf_size := 8;
                  pt_buf_addr := 16;
                  pt_catch_result := 0;
                  pt_resp_size := 4 |}
               (store_bytes 16 (cfg_response dead_entry) ramp) 1%nat
               ltac:(discriminate) ltac:(discriminate) ltac:(discriminate)
               ltac:(discriminate) Hi eq_refl).
    reflexivity.
Defined.

Lemma get_max_output_size_verbatim_witness :
  let fw := double vtpm20 in
  let s := boot ramp O in
  let s1 := snd (grub_ieee1275_tpm_init fw s) in
  grub_ieee1275_tpm_init fw s = (GRUB_ERR_NONE, s1) /\
  fst (grub_tcg2_get_max_output_size fw 0 s) = (GRUB_ERR_NONE, 4096).
Proof.
  intros fw s s1.
  assert (Hi : grub_ieee1275_tpm_init fw s = (GRUB_ERR_NONE, s1))
    by reflexivity.
  split; [exact Hi | ].
  rewrite (get_max_output_size_verbatim fw 0 s s1 0
             {| gm_common := INIT_IEEE1275_COMMON "call-method" 2 2;
                gm_method := "get-maximum-cmd-size";
                gm_ihandle := 7;
                gm_catch_result := 0;
                gm_size := 4096 |} 1%nat Hi eq_refl
             ltac:(discriminate) eq_refl).
  reflexivity.
Defined.

Lemma error_return_writes_nothing_witness :
  let fw := double old_firmware in
  let s := boot ramp O in
  let r := grub_tcg2_get_max_output_size fw 77 s in
  let r' := grub_tcg2_submit_command fw 8 16 8 32 s in
  fst (fst r) <> GRUB_ERR_NONE /\
  snd (fst r) = 77 /\
  fst r' <> GRUB_ERR_NONE /\
  mem (snd r') 16 = xff /\
  mem (snd r') 32 = mem s 32 /\
  count is_memcpy (trace (snd r')) = 0%nat.
Proof.
  intros fw s r r'.
  assert (H : fst (fst r) <> GRUB_ERR_NONE) by discriminate.
  assert (H' : fst r' <> GRUB_ERR_NONE) by discriminate.
  assert (Hk : forall h w,
             snd (fst (fw_entry_pass_through_to_tpm fw
                         (pass_through_to_tpm_args h 8 16) (mem s) w)) 32
             = mem s 32) by reflexivity.
  destruct (error_return_writes_nothing fw) as [H1 H2].
  destruct (H2 8 16 8 32 s H') as (C1 & _ & C3).
  split; [exact H | ]. split; [exact (H1 77 s H) | ]. split; [exact H' | ].
  split; [reflexivity | ]. split; [exact (C3 32 Hk) | ].
  exact (eq_trans (grows_without_count _ _ _ C1) eq_refl).
Defined.

Lemma submit_command_bad_argument_no_side_effect_witness :
  let fw := double vtpm20 in
  let s := boot ramp O in
  let r := grub_tcg2_submit_command fw 8 16 0 32 s in
  (8 = 0 \/ 16 = NULL \/ 0 = 0 \/ 32 = NULL) /\
  r = (GRUB_ERR_BAD_ARGUMENT, s) /\
  init_success (snd r) = 0 /\
  count is_open (trace (snd r)) = 0%nat.
Proof.
  intros fw s r.
  assert (H : 8 = 0 \/ 16 = NULL \/ 0 = 0 \/ 32 = NULL)
    by (right; right; left; reflexivity).
  destruct (submit_command_bad_argument_no_side_effect fw 8 16 0 32 s H)
    as (C1 & _ & _ & C4 & _ & _ & C7).
  split; [exact H | ]. split; [exact C1 | ]. split; [exact C4 | exact C7].
Defined.

Lemma unknown_device_iff_uninitialised_witness :
  let fw := double late_device in
  let c := call_get_max_output_size 0 in
  let r := do_call fw c (boot ramp O) in
  reaches_init c = true /\
  fst r = GRUB_ERR_UNKNOWN_DEVICE /\
  init_success (snd r) = 0.
Proof.
  intros fw c r.
  assert (Hc : reaches_init c = true) by reflexivity.
  assert (Hr : fst r = GRUB_ERR_UNKNOWN_DEVICE) by reflexivity.
  destruct (unknown_device_iff_uninitialised fw c (boot ramp O) Hc) as [H _].
  split; [exact Hc | ]. split; [exact Hr | exact (H Hr)].
Defined.

Lemma open_failure_propagates_witness :
  let fw := double late_device in
  let s := boot ramp O in
  let s1 := set_ihandle IEEE1275_IHANDLE_INVALID
              (set_world 1%nat (log (ev_open "/vdevice/vtpm") s)) in
  init_success s = 0 /\
  -1 < 0 /\
  do_call fw (call_submit_command 8 16 8 32) s = (GRUB_ERR_UNKNOWN_DEVICE, s1) /\
  grub_tcg2_get_max_output_size fw 77 s = ((GRUB_ERR_UNKNOWN_DEVICE, 77), s1).
Proof.
  intros fw s s1.
  assert (E : init_success s = 0) by reflexivity.
  assert (Hrc : -1 < 0) by lia.
  destruct (open_failure_propagates fw s (-1) 0 1%nat E eq_refl Hrc)
    as (H1 & H2 & _).
  split; [exact E | ]. split; [exact Hrc | ].
  split; [exact (H1 (call_submit_command 8 16 8 32) eq_refl) | exact (H2 77)].
Defined.

Lemma submit_command_ignores_output_size_witness :
  let fw := double vtpm20 in
  let s := boot ramp O in
  let r := grub_tcg2_submit_command fw 8 16 2 32 s in
  2 <> 0 /\
  grub_tcg2_submit_command fw 8 16 8 32 s = r /\
  mem (snd r) (32 + 3) = x0a.
Proof.
  intros fw s r.
  assert (H : 2 <> 0) by discriminate.
  destruct (submit_command_ignores_output_size fw 8 16 2 32 s H) as [H1 H2].
  split; [exact H | ]. split; [apply H1; discriminate | ].
  exact (H2 (snd (grub_ieee1275_tpm_init fw s)) 0
           {| pt_common := INIT_IEEE1275_COMMON "call-method" 4 2;
              pt_method := "pass-through-to-tpm";
              pt_ihandle := 7;
              pt_buf_size := 8;
              pt_buf_addr := 16;
              pt_catch_result := 0;
              pt_resp_size := 4 |}
           (store_bytes 16 (cfg_response vtpm20) ramp) 1%nat
           ltac:(discriminate) ltac:(discriminate) ltac:(discriminate)
           eq_refl eq_refl ltac:(discriminate) eq_refl
           3 ltac:(lia) ltac:(cbn; lia)).
Defined.

Lemma submit_command_in_place_witness :
  let fw := double vtpm20 in
  let s := boot ramp O in
  let r := grub_tcg2_submit_command fw 8 16 8 16 s in
  fst r = GRUB_ERR_NONE /\
  mem (snd r) 16 = x80 /\
  mem (snd r) 20 = ramp 20.
Proof.
  intros fw s r.
  destruct (submit_command_in_place fw 8 16 8 s
              (snd (grub_ieee1275_tpm_init fw s)) 0
              {| pt_common := INIT_IEEE1275_COMMON "call-method" 4 2;
                 pt_method := "pass-through-to-tpm";
                 pt_ihandle := 7;
                 pt_buf_size := 8;
                 pt_buf_addr := 16;
                 pt_catch_result := 0;
                 pt_resp_size := 4 |}
              (store_bytes 16 (cfg_response vtpm20) ramp) 1%nat
              ltac:(discriminate) ltac:(discriminate) ltac:(discriminate)
              eq_refl eq_refl ltac:(discriminate) eq_refl) as [H1 H2].
  split; [exact H1 | ]. split; [exact (H2 16) | exact (H2 20)].
Defined.

Lemma tpm_get_tpm_version_effects_witness :
  let fw := double vtpm20 in
  let s := boot ramp O in
  let s' := snd (tpm_get_tpm_version fw s) in
  fw_finddevice fw "/vdevice/vtpm" (world s) = (0, 3, O) /\
  mem s' = mem s /\
  appended s s' =
    [ev_finddevice "/vdevice/vtpm"; ev_get_property 3 "compatible" 20].
Proof.
  intros fw s s'.
  assert (Hf : fw_finddevice fw "/vdevice/vtpm" (world s) = (0, 3, O))
    by reflexivity.
  destruct (tpm_get_tpm_version_effects fw s 0 3 O Hf)
    as (_ & _ & _ & _ & H5 & H6).
  split; [exact Hf | ]. split; [exact H5 | exact H6].
Defined.

Lemma version_detection_reads_eleven_bytes_witness :
  let fw := double vtpm20 in
  let s := boot ramp O in
  let buffer := lit "IBM,vtpm20" ++ repeat x00 10 in
  List.length buffer = 20%nat /\
  firstn 11 buffer = lit "IBM,vtpm20" ++ [x00] /\
  grub_ieee1275_tpm_version (snd (tpm_get_tpm_version fw s)) = 2.
Proof.
  intros fw s buffer.
  assert (Hl : List.length buffer = 20%nat) by reflexivity.
  assert (Hb : firstn 11 buffer = lit "IBM,vtpm20" ++ [x00]) by reflexivity.
  destruct (version_detection_reads_eleven_bytes fw s 3 O buffer O
              eq_refl eq_refl Hl) as [H _].
  split; [exact Hl | ]. split; [exact Hb | exact (H Hb)].
Defined.

Lemma tpm_init_caches_opened_handle_witness :
  let fw := double vtpm20 in
  let s := boot ramp O in
  let r := grub_ieee1275_tpm_init fw s in
  init_success s = 0 /\
  0 <= 0 /\
  fst r = GRUB_ERR_NONE /\
  init_success (snd r) = 1 /\
  grub_ieee1275_tpm_ihandle (snd r) = 7.
Proof.
  intros fw s r.
  assert (E : init_success s = 0) by reflexivity.
  assert (Hrc : 0 <= 0) by lia.
  destruct (tpm_init_caches_opened_handle fw s 0 7 1%nat E eq_refl Hrc)
    as (H1 & H2 & H3 & _).
  split; [exact E | ]. split; [exact Hrc | ].
  split; [exact H1 | ]. split; [exact H2 | exact H3].
Defined.
